(** * findid: the nearest-earthquake lookup of libcomcat

    A shallow embedding of [libcomcat/bin/findid.py] and of the Python and
    pandas operations it relies on, followed by the properties of the
    command that the specification states.

    Layout: [Py] (values and exceptions), [OsPath] ([os.path.splitext]),
    [Pandas] (the DataFrame operations [main] uses), [Proc] (effects,
    [sys.exit] and uncaught exceptions), [Findid] (the parser's
    conversions and [main]), [Ranker] (the ranking step, which lives in
    [libcomcat.dataframes]), then the properties. *)

From Stdlib Require Import List String Ascii ZArith QArith Qabs Bool Lia Lqa.
From Stdlib Require Import Sorting.Sorted Sorting.Permutation.
Import ListNotations.

#[local] Set Warnings "-register-all".
#[local] Open Scope string_scope.
#[local] Open Scope Z_scope.

(* ===================================================================== *)
(** ** Python values *)
(* ===================================================================== *)

Module Py.

(** Exception classes met on the modelled paths. *)
Inductive exn :=
| AttributeError
| IndexError
| KeyError
| ValueError
| TypeError
| ArgumentTypeError
| OtherException (cls : string).

(** A Python [float]. Finite values are kept as exact rationals (rounding
    to binary64 is not modelled; both signed zeros are [Finite 0]). *)
Inductive pyfloat :=
| Finite (q : Q)
| Inf (negative : bool)
| NaN.

(** [float.__bool__]: every value but zero is true. *)
Definition float_truthy (f : pyfloat) : bool :=
  match f with
  | Finite q => negb (Qnum q =? 0)
  | Inf _ => true
  | NaN => true
  end.

(** A float that is zero: the one value [float.__bool__] takes as false. *)
Definition float_is_zero (f : pyfloat) : Prop :=
  exists q, f = Finite q /\ (q == 0)%Q.

(** A number that is either an [int] (the module constants) or a [float]
    (a parsed option). *)
Inductive pynum :=
| NInt (z : Z)
| NFloat (f : pyfloat).

(** A naive [datetime], as microseconds since 0001-01-01T00:00:00. *)
Definition datetime := Z.

(** Objects that can sit in a DataFrame cell or come out of one. *)
Inductive pyval :=
| VNone
| VStr (s : string)
| VInt (z : Z)
| VFloat (f : pyfloat)
| VDatetime (t : datetime)
| VArray (items : list pyval)
| VSeries (index : list string) (items : list pyval).

(** The outcome of an operation that may raise. *)
Inductive result (A : Type) :=
| Ok (a : A)
| Err (e : exn).
Arguments Ok {A} a.
Arguments Err {A} e.

End Py.

(* ===================================================================== *)
(** ** os.path.splitext (posixpath) *)
(* ===================================================================== *)

Module OsPath.

(** [str.rfind] for a single character: the highest index, or -1. *)
Fixpoint rfind_from (c : ascii) (s : string) (i : Z) : Z :=
  match s with
  | EmptyString => -1
  | String a rest =>
      let later := rfind_from c rest (i + 1) in
      if 0 <=? later then later
      else if Ascii.eqb a c then i else -1
  end.

Definition rfind (c : ascii) (s : string) : Z := rfind_from c s 0.

(** [p[i:i+1] != extsep] for some [i] among the [n] indices from [i]: the
    loop of [genericpath._splitext] that skips leading dots. *)
Fixpoint non_dot_within (p : string) (i : nat) (n : nat) : bool :=
  match n with
  | O => false
  | S n' =>
      match String.get i p with
      | Some a => if Ascii.eqb a "."%char then non_dot_within p (S i) n' else true
      | None => true
      end
  end.

Definition splitext (p : string) : string * string :=
  let sepIndex := rfind "/"%char p in
  let dotIndex := rfind "."%char p in
  if sepIndex <? dotIndex then
    let filenameIndex := sepIndex + 1 in
    if non_dot_within p (Z.to_nat filenameIndex) (Z.to_nat (dotIndex - filenameIndex))
    then (substring 0 (Z.to_nat dotIndex) p,
          substring (Z.to_nat dotIndex) (String.length p - Z.to_nat dotIndex) p)
    else (p, "")
  else (p, "").

End OsPath.

(* ===================================================================== *)
(** ** The pandas operations used by [main] *)
(* ===================================================================== *)

Module Pandas.
Import Py.

(** A row taken out of a frame: labels and the objects under them. *)
Record Series := mkSeries { index : list string; data : list pyval }.

(** A frame: column labels and rows, each row holding one object per
    column. *)
Record DataFrame := mkFrame { columns : list string; rows : list (list pyval) }.

(** [len(df)]. *)
Definition len (df : DataFrame) : Z := Z.of_nat (List.length (rows df)).

(** [df.iloc[0]]: the first row as a Series indexed by the column labels;
    [IndexError] on an empty frame. *)
Definition iloc0 (df : DataFrame) : result Series :=
  match rows df with
  | [] => Err IndexError
  | r :: _ => Ok (mkSeries (columns df) r)
  end.

(** The objects stored under label [key], in order. *)
Fixpoint select (key : string) (idx : list string) (items : list pyval) : list pyval :=
  match idx, items with
  | k :: idx', v :: items' =>
      if String.eqb k key then v :: select key idx' items' else select key idx' items'
  | _, _ => []
  end.

(** [s[key]] for a string label: [KeyError] when the label is absent, the
    object itself when the label occurs once, and a Series of the matches
    when the label is repeated. *)
Definition getitem (s : Series) (key : string) : result pyval :=
  match select key (index s) (data s) with
  | [] => Err KeyError
  | [v] => Ok v
  | vs => Ok (VSeries (List.map (fun _ => key) vs) vs)
  end.

(** The attribute [.values]: pandas objects have it, the other objects of
    the model ([str], numbers, datetimes, arrays, [None]) do not. *)
Definition values (v : pyval) : result (list pyval) :=
  match v with
  | VSeries _ items => Ok items
  | _ => Err AttributeError
  end.

(** [a[0]] on an array. *)
Definition item0 (a : list pyval) : result pyval :=
  match a with
  | [] => Err IndexError
  | x :: _ => Ok x
  end.

(** [list.remove(x)]: drops the first occurrence; [ValueError] when there
    is none. *)
Fixpoint list_remove (x : string) (l : list string) : result (list string) :=
  match l with
  | [] => Err ValueError
  | y :: l' =>
      if String.eqb y x then Ok l'
      else match list_remove x l' with
           | Ok r => Ok (y :: r)
           | Err e => Err e
           end
  end.

(** The two writers [main] calls: [DataFrame.to_excel] and
    [DataFrame.to_csv]. *)
Inductive file_format :=
| Xlsx
| Csv.

(** A frame the three explicit modes can present: at least one row, as
    long as the column list, which names [id] and [url]. *)
Definition has_event_columns (df : DataFrame) : Prop :=
  exists row rest,
    rows df = row :: rest /\
    List.length row = List.length (columns df) /\
    In "id" (columns df) /\
    In "url" (columns df).

End Pandas.

(* ===================================================================== *)
(** ** Processes: observable effects, [sys.exit] and uncaught exceptions *)
(* ===================================================================== *)

Module Proc.
Import Py Pandas.

(** What [print] is given. [Fmt t args] is the string [t % args]. *)
Inductive printable :=
| Text (s : string)
| Fmt (template : string) (args : list pyval)
| Obj (v : pyval)
| Frame (df : DataFrame).

(** The observable actions of the command, in the order they happen. *)
Inductive effect :=
| Stdout (p : printable)
| Stderr (s : string)
| SetupLogger (logfile loglevel : string)
| LogError (msg : string)
| FindNearbyEvents (time : datetime) (lat lon : pyfloat) (twindow radius : pynum)
| ToExcel (df : DataFrame) (path : string)
| ToCsv (df : DataFrame) (path : string).
(* [ToExcel] and [ToCsv] record the call; whether the file gets written is
   the writer's answer. *)

(** How a computation stops: with a value, in [sys.exit(code)], or with an
    exception nobody catches. *)
Inductive status (A : Type) :=
| Done (a : A)
| Exited (code : Z)
| Raised (e : exn).
Arguments Done {A} a.
Arguments Exited {A} code.
Arguments Raised {A} e.

Definition proc (A : Type) : Type := list effect * status A.

Definition ret {A} (a : A) : proc A := ([], Done a).

Definition bind {A B} (m : proc A) (k : A -> proc B) : proc B :=
  match m with
  | (t, Done a) => let (t', s) := k a in ((t ++ t')%list, s)
  | (t, Exited c) => (t, Exited c)
  | (t, Raised e) => (t, Raised e)
  end.

Definition emit (e : effect) : proc unit := ([e], Done tt).
Definition sys_exit {A} (code : Z) : proc A := ([], Exited code).
Definition raise {A} (e : exn) : proc A := ([], Raised e).

Definition lift {A} (r : result A) : proc A :=
  match r with
  | Ok a => ret a
  | Err e => raise e
  end.

Definition print (p : printable) : proc unit := emit (Stdout p).

(** A [for] loop over a list. *)
Fixpoint for_each {A} (l : list A) (body : A -> proc unit) : proc unit :=
  match l with
  | [] => ret tt
  | x :: l' => bind (body x) (fun _ => for_each l' body)
  end.

Definition trace {A} (m : proc A) : list effect := fst m.
Definition outcome {A} (m : proc A) : status A := snd m.

(** The exit status the shell sees: 0 after a normal return, the argument
    of [sys.exit], 1 after a traceback. *)
Definition exit_code {A} (m : proc A) : Z :=
  match outcome m with
  | Done _ => 0
  | Exited c => c
  | Raised _ => 1
  end.

(** The lines written to standard output. *)
Definition stdout {A} (m : proc A) : list printable :=
  flat_map (fun e => match e with Stdout p => [p] | _ => [] end) (trace m).

(** The catalog lookups issued. *)
Definition is_lookup (e : effect) : bool :=
  match e with FindNearbyEvents _ _ _ _ _ => true | _ => false end.

Definition lookups {A} (m : proc A) : list effect := filter is_lookup (trace m).

(** The [to_excel] and [to_csv] calls made. *)
Definition is_export (e : effect) : bool :=
  match e with ToExcel _ _ | ToCsv _ _ => true | _ => false end.

Definition exports {A} (m : proc A) : list effect := filter is_export (trace m).

(** Effects of the presenter: lines on standard output and exported
    files, nothing else. *)
Definition is_output (e : effect) : bool :=
  match e with
  | Stdout _ | ToExcel _ _ | ToCsv _ _ => true
  | _ => false
  end.

Module Notations.
Notation "x <- c1 ;; c2" := (bind c1 (fun x => c2))
  (at level 61, c1 at next level, right associativity).
Notation "c1 ;; c2" := (bind c1 (fun _ => c2))
  (at level 61, right associativity).
End Notations.

End Proc.

(* ===================================================================== *)
(** ** libcomcat/bin/findid.py *)
(* ===================================================================== *)

Module Findid.
Import Py OsPath Pandas Proc Proc.Notations.

(** constants *)
Definition SEARCH_RADIUS : pynum := NInt 100.
Definition TIME_WINDOW : pynum := NInt 16.

(** The namespace [parser.parse_args()] returns. [radius], [window] and
    [outfile] have no default and are [None] when the option is absent. *)
Record Namespace := mkNamespace {
  time : datetime;
  lat : pyfloat;
  lon : pyfloat;
  radius : option pyfloat;
  window : option pyfloat;
  print_all : bool;
  print_url : bool;
  print_verbose : bool;
  outfile : option string;
  logfile : string;
  loglevel : string
}.

(** *** get_parser / parse_args

    The command line as argparse has split it: for each argument the
    outcome of its [type=] callable on the string given ([maketime] for
    the time, [float] for the numbers), the three [store_true] flags and
    the strings of the remaining options ([None] when absent), and the
    order in which the converted and checked arguments stand in argv. How
    argv is cut into these pieces (option prefixes, [--], missing, extra
    or repeated arguments) is not modelled, nor are [--help] and
    [--version], which print and leave at the place they stand. *)
Inductive converted (A : Type) :=
| Value (a : A)
| Raises (e : exn).
Arguments Value {A} a.
Arguments Raises {A} e.

(** The arguments argparse converts ([type=]) or checks ([choices=]). *)
Inductive dest :=
| Dtime
| Dlat
| Dlon
| Dradius
| Dwindow
| Dloglevel.

Record CommandLine := mkCommandLine {
  arg_time : converted datetime;
  arg_lat : converted pyfloat;
  arg_lon : converted pyfloat;
  opt_radius : option (converted pyfloat);
  opt_window : option (converted pyfloat);
  opt_all : bool;
  opt_url : bool;
  opt_verbose : bool;
  opt_outfile : option string;
  opt_logfile : option string;
  opt_loglevel : option string;
  (** the arguments above that are present, as they follow one another in
      argv: argparse converts or checks each one when it meets it *)
  argv_order : list dest
}.

(** [x in l] for strings. *)
Definition str_in (x : string) (l : list string) : bool :=
  existsb (String.eqb x) l.

(** argparse turns these exceptions of a [type=] callable into
    [parser.error]; any other exception leaves [parse_args] uncaught. *)
Definition argparse_catches (e : exn) : bool :=
  match e with
  | ArgumentTypeError | TypeError | ValueError => true
  | _ => false
  end.

(** [parser.error]: usage and message on standard error, exit status 2. *)
Definition parser_error {A} (msg : string) : proc A :=
  emit (Stderr msg) ;; sys_exit 2.

Definition get_value {A} (dest : string) (c : converted A) : proc A :=
  match c with
  | Value a => ret a
  | Raises e => if argparse_catches e then parser_error dest else raise e
  end.

Definition get_optional {A} (dest : string) (o : option (converted A)) : proc (option A) :=
  match o with
  | None => ret None
  | Some c => a <- get_value dest c ;; ret (Some a)
  end.

Definition loglevel_choices : list string := ["debug"; "info"; "warning"; "error"].

(** What argparse does when it meets argument [d]: the conversion (or the
    choices check) of that argument alone; a failure ends the parse
    there. *)
Definition check_argument (cl : CommandLine) (d : dest) : proc unit :=
  match d with
  | Dtime => get_value "time" (arg_time cl) ;; ret tt
  | Dlat => get_value "lat" (arg_lat cl) ;; ret tt
  | Dlon => get_value "lon" (arg_lon cl) ;; ret tt
  | Dradius => get_optional "radius" (opt_radius cl) ;; ret tt
  | Dwindow => get_optional "window" (opt_window cl) ;; ret tt
  | Dloglevel =>
      match opt_loglevel cl with
      | None => ret tt
      | Some l => if str_in l loglevel_choices then ret tt else parser_error "loglevel"
      end
  end.

(** The namespace of the converted values, with the defaults of
    [get_parser] for the options that are absent. *)
Definition build_namespace (cl : CommandLine) : proc Namespace :=
  t <- get_value "time" (arg_time cl) ;;
  la <- get_value "lat" (arg_lat cl) ;;
  lo <- get_value "lon" (arg_lon cl) ;;
  r <- get_optional "radius" (opt_radius cl) ;;
  w <- get_optional "window" (opt_window cl) ;;
  lv <- match opt_loglevel cl with
        | None => ret "info"
        | Some l => if str_in l loglevel_choices then ret l else parser_error "loglevel"
        end ;;
  ret {| time := t; lat := la; lon := lo; radius := r; window := w;
         print_all := opt_all cl; print_url := opt_url cl;
         print_verbose := opt_verbose cl; outfile := opt_outfile cl;
         logfile := match opt_logfile cl with Some f => f | None => "stderr" end;
         loglevel := lv |}.

(** [parser.parse_args()]: the arguments are converted and checked in the
    order they stand in argv, and the first failure ends the parse; when
    none fails the namespace is built. (An argument that [argv_order]
    leaves out is converted when the namespace is built.) *)
Definition parse_args (cl : CommandLine) : proc Namespace :=
  for_each (argv_order cl) (check_argument cl) ;;
  build_namespace cl.

(** Why argparse gives up on an argument: its conversion raised, or its
    value is not among the choices. *)
Inductive rejection :=
| Conversion (e : exn)
| Choice.

Definition rejection_at (cl : CommandLine) (d : dest) : option rejection :=
  match d with
  | Dtime => match arg_time cl with Raises e => Some (Conversion e) | Value _ => None end
  | Dlat => match arg_lat cl with Raises e => Some (Conversion e) | Value _ => None end
  | Dlon => match arg_lon cl with Raises e => Some (Conversion e) | Value _ => None end
  | Dradius =>
      match opt_radius cl with Some (Raises e) => Some (Conversion e) | _ => None end
  | Dwindow =>
      match opt_window cl with Some (Raises e) => Some (Conversion e) | _ => None end
  | Dloglevel =>
      match opt_loglevel cl with
      | Some l => if str_in l loglevel_choices then None else Some Choice
      | None => None
      end
  end.

Fixpoint first_rejection (cl : CommandLine) (l : list dest) : option rejection :=
  match l with
  | [] => None
  | d :: l' =>
      match rejection_at cl d with
      | Some r => Some r
      | None => first_rejection cl l'
      end
  end.

(** The first argument that fails, in the order [parse_args] meets
    them. *)
Definition first_failure (cl : CommandLine) : option rejection :=
  first_rejection cl
    (argv_order cl ++ [Dtime; Dlat; Dlon; Dradius; Dwindow; Dloglevel])%list.

(** How the process ends on a rejection: [parser.error] (status 2) for
    what argparse intercepts, the exception itself otherwise. *)
Definition rejected {A} (r : rejection) : status A :=
  match r with
  | Conversion e => if argparse_catches e then Exited 2 else Raised e
  | Choice => Exited 2
  end.

(** *** main *)

Definition supported : list string := [".xlsx"; ".csv"].

(** [str(supported)]. *)
Definition str_supported : string := "['.xlsx', '.csv']".

Definition exclusive_msg : string :=
  "The -a, -v, and -u options are mutually exclusive. Choose one of these options. Exiting.".

Definition together_msg : string := "You must select -a and -o together. Exiting".

Definition extension_fmt : string :=
  "File extension %s not in list of supported formats: %s. Exiting.".

Definition no_events_msg : string :=
  "No events found matching your search criteria. Exiting.".

(** A [to_excel] or [to_csv] call is for the path named by -o, in the
    format of its extension. *)
Definition export_matches (args : Namespace) (e : effect) : Prop :=
  match e with
  | ToExcel _ p => outfile args = Some p /\ snd (splitext p) = ".xlsx"
  | ToCsv _ p => outfile args = Some p /\ snd (splitext p) = ".csv"
  | _ => True
  end.

Section Main.

(** [find_nearby_events] is imported from [libcomcat.dataframes]: what it
    returns (or raises) for the arguments it is given. *)
Variable lookup :
  datetime -> pyfloat -> pyfloat -> pynum -> pynum -> result (option DataFrame).

Definition find_nearby_events (t : datetime) (la lo : pyfloat) (twindow radius : pynum)
  : proc (option DataFrame) :=
  emit (FindNearbyEvents t la lo twindow radius) ;;
  lift (lookup t la lo twindow radius).

(** [DataFrame.to_excel] and [DataFrame.to_csv] are pandas code: what a
    write returns or raises (a path that cannot be written, a missing
    Excel writer) for the frame and path it is given. *)
Variable write : file_format -> DataFrame -> string -> result unit.

Definition to_excel (df : DataFrame) (path : string) : proc unit :=
  emit (ToExcel df path) ;;
  lift (write Xlsx df path).

Definition to_csv (df : DataFrame) (path : string) : proc unit :=
  emit (ToCsv df path) ;;
  lift (write Csv df path).

(** [setup_logger] and [logging.error], as effects. *)
Definition setup_logger (file level : string) : proc unit :=
  emit (SetupLogger file level).

Definition logging_error (msg : string) : proc unit := emit (LogError msg).

(** Line 117: the number of mode flags given. *)
Definition argsum (args : Namespace) : Z :=
  Z.b2z (print_all args) + Z.b2z (print_url args) + Z.b2z (print_verbose args).

(** Lines 116-137: the three usage checks made before any other work. *)
Definition check_usage (args : Namespace) : proc unit :=
  (* trap for mutually exclusive options a, u and v *)
  (if 1 <? argsum args
   then print (Text exclusive_msg) ;; sys_exit 1
   else ret tt) ;;
  (* if -o option you must have specified -a option also *)
  (match outfile args with
   | Some _ =>
       if negb (print_all args)
       then print (Text together_msg) ;; sys_exit 1
       else ret tt
   | None => ret tt
   end) ;;
  (* if -o format is not recognized, error out *)
  match outfile args with
  | Some f =>
      let (fpath, fext) := splitext f in
      if negb (str_in fext supported)
      then print (Fmt extension_fmt [VStr fext; VStr str_supported]) ;; sys_exit 1
      else ret tt
  | None => ret tt
  end.

(** Lines 141-147. *)
Definition choose_twindow (args : Namespace) : pynum :=
  match window args with
  | Some w => if float_truthy w then NFloat w else TIME_WINDOW
  | None => TIME_WINDOW
  end.

Definition choose_radius (args : Namespace) : pynum :=
  match radius args with
  | Some r => if float_truthy r then NFloat r else SEARCH_RADIUS
  | None => SEARCH_RADIUS
  end.

(** Lines 157-183: the four output modes. *)
Definition present (args : Namespace) (event_df : DataFrame) : proc unit :=
  nearest <- lift (iloc0 event_df) ;;
  (if print_all args then
     (match outfile args with
      | Some f =>
          if String.eqb f "" then print (Frame event_df)
          else
            let (fpath, fext) := splitext f in
            (if String.eqb fext ".xlsx"
             then to_excel event_df f
             else to_csv event_df f) ;;
            print (Fmt "Wrote %i records to %s" [VInt (len event_df); VStr f])
      | None => print (Frame event_df)
      end) ;;
     sys_exit 0
   else ret tt) ;;
  (if print_verbose args then
     ident <- lift (getitem nearest "id") ;;
     print (Fmt "Event %s" [ident]) ;;
     cols <- lift (list_remove "id" (index nearest)) ;;
     for_each cols (fun col =>
       v <- lift (getitem nearest col) ;;
       print (Fmt "  %s : %s" [VStr col; v])) ;;
     sys_exit 0
   else ret tt) ;;
  (if print_url args then
     u <- lift (getitem nearest "url") ;;
     print (Obj u) ;;
     sys_exit 0
   else ret tt) ;;
  ident <- lift (getitem nearest "id") ;;
  arr <- lift (values ident) ;;
  first <- lift (item0 arr) ;;
  print (Obj first).

(** Lines 116-183: the body of [main] once the arguments are parsed. *)
Definition run (args : Namespace) : proc unit :=
  check_usage args ;;
  setup_logger (logfile args) (loglevel args) ;;
  let twindow := choose_twindow args in
  (* set distance thresholds *)
  let radius := choose_radius args in
  event_df <- find_nearby_events (time args) (lat args) (lon args) twindow radius ;;
  match event_df with
  | None => logging_error no_events_msg ;; sys_exit 0
  | Some event_df => present args event_df
  end.

(** [main()]: parse the command line, then run. *)
Definition main (cl : CommandLine) : proc unit :=
  args <- parse_args cl ;;
  run args.

End Main.

(** The write that -a -o makes for path [f], and the condition that it
    succeeds. *)
Definition format_of (f : string) : file_format :=
  if String.eqb (snd (splitext f)) ".xlsx" then Xlsx else Csv.

Definition export_succeeds
  (write : file_format -> DataFrame -> string -> result unit)
  (args : Namespace) (df : DataFrame) : Prop :=
  forall f, outfile args = Some f -> write (format_of f) df f = Ok tt.

(** What the three usage checks ask of an invocation: at most one mode
    flag, and an output file only together with -a and with a supported
    extension. *)
Definition usage_ok (args : Namespace) : Prop :=
  argsum args <= 1 /\
  (forall f, outfile args = Some f ->
     print_all args = true /\ str_in (snd (splitext f)) supported = true).

(** A window or radius that is zero, as an [int] or as a [float]. *)
Definition num_is_zero (n : pynum) : Prop :=
  match n with
  | NInt z => z = 0
  | NFloat f => float_is_zero f
  end.

End Findid.

(* ===================================================================== *)
(** ** The ranking step behind [find_nearby_events] *)
(* ===================================================================== *)

Module Ranker.
Import Py Pandas.
#[local] Open Scope Q_scope.

(** Modelled from the spec: the CandidateEvent of the data model, one per
    record of the catalog service ([libcomcat.dataframes] and
    [libcomcat.search] are not among the sources). *)
Record CandidateEvent := mkCandidate {
  id : string;
  time : datetime;
  latitude : Q;
  longitude : Q;
  depth : Q;
  magnitude : Q;
  url : string
}.

(** Modelled from the spec: the RankedEvent of the data model, a candidate
    with its derived distance, time difference and azimuth. *)
Record RankedEvent := mkRanked {
  event : CandidateEvent;
  distance_km : Q;
  time_delta_s : Q;
  azimuth_deg : Q
}.

(** Modelled from the spec: [time_delta_s = |candidate.time - t0|], in
    seconds. *)
Definition time_delta (t0 : datetime) (c : CandidateEvent) : Q :=
  Z.abs (time c - t0) # 1000000.

(** Modelled from the spec: the inclusive bound test [x <= bound] of the
    filter, for a bound that is an [int] or a [float]. *)
Definition within (x : Q) (bound : pynum) : bool :=
  match bound with
  | NInt z => Qle_bool x (inject_Z z)
  | NFloat (Finite q) => Qle_bool x q
  | NFloat (Inf negative) => negb negative
  | NFloat NaN => false
  end.

(** Modelled from the spec: the composite sort key, time difference first
    and distance second. *)
Definition key_leb (a b : RankedEvent) : bool :=
  match time_delta_s a ?= time_delta_s b with
  | Lt => true
  | Eq => Qle_bool (distance_km a) (distance_km b)
  | Gt => false
  end.

(** Modelled from the spec: ascending order on the composite key, as a
    relation: an earlier time difference, or the same one and a distance
    that is not larger. *)
Definition key_le (a b : RankedEvent) : Prop :=
  time_delta_s a < time_delta_s b \/
  (time_delta_s a == time_delta_s b /\ distance_km a <= distance_km b).

(** Modelled from the spec: two events tie when neither key precedes the
    other. *)
Definition same_key (a b : RankedEvent) : bool := key_leb a b && key_leb b a.

(** Modelled from the spec: the stable ascending sort of step 3, as an
    insertion sort that never moves an element past one of equal key. *)
Fixpoint insert (x : RankedEvent) (l : list RankedEvent) : list RankedEvent :=
  match l with
  | [] => [x]
  | y :: l' => if key_leb x y then x :: y :: l' else y :: insert x l'
  end.

Fixpoint sort_values (l : list RankedEvent) : list RankedEvent :=
  match l with
  | [] => []
  | x :: l' => insert x (sort_values l')
  end.

(** Modelled from the spec: the columns of the output table. *)
Definition frame_columns : list string :=
  ["id"; "time"; "latitude"; "longitude"; "depth"; "magnitude"; "url";
   "distance_km"; "time_delta_s"; "azimuth_deg"]%string.

Definition to_row (r : RankedEvent) : list pyval :=
  [VStr (id (event r)); VDatetime (time (event r));
   VFloat (Finite (latitude (event r))); VFloat (Finite (longitude (event r)));
   VFloat (Finite (depth (event r))); VFloat (Finite (magnitude (event r)));
   VStr (url (event r));
   VFloat (Finite (distance_km r)); VFloat (Finite (time_delta_s r));
   VFloat (Finite (azimuth_deg r))].

Definition to_frame (l : list RankedEvent) : DataFrame :=
  mkFrame frame_columns (List.map to_row l).

Section Rank.

(** Great-circle distance in km and initial bearing in degrees from the
    target to a candidate: trigonometry on floats, kept abstract. *)
Variable haversine : pyfloat -> pyfloat -> CandidateEvent -> Q.
Variable bearing : pyfloat -> pyfloat -> CandidateEvent -> Q.

(** The records the catalog service returns for a query; [None] stands for
    a malformed record. *)
Variable fetch :
  datetime -> pyfloat -> pyfloat -> pynum -> pynum -> list (option CandidateEvent).

(** Modelled from the spec: the Result Mapper, which drops malformed
    records and keeps the order of the others. *)
Fixpoint map_records (raw : list (option CandidateEvent)) : list CandidateEvent :=
  match raw with
  | [] => []
  | Some c :: raw' => c :: map_records raw'
  | None :: raw' => map_records raw'
  end.

(** Modelled from the spec: step 1 of the ranker. *)
Definition annotate (t0 : datetime) (lat0 lon0 : pyfloat) (c : CandidateEvent) : RankedEvent :=
  {| event := c;
     distance_km := haversine lat0 lon0 c;
     time_delta_s := time_delta t0 c;
     azimuth_deg := bearing lat0 lon0 c |}.

(** Modelled from the spec: step 2, with inclusive bounds. *)
Definition in_bounds (twindow radius : pynum) (r : RankedEvent) : bool :=
  within (distance_km r) radius && within (time_delta_s r) twindow.

(** Modelled from the spec: steps 1 and 2, in encounter order. *)
Definition candidates (t0 : datetime) (lat0 lon0 : pyfloat) (twindow radius : pynum)
  : list RankedEvent :=
  filter (in_bounds twindow radius)
    (List.map (annotate t0 lat0 lon0)
       (map_records (fetch t0 lat0 lon0 twindow radius))).

(** Modelled from the spec: steps 1 to 3. *)
Definition rank (t0 : datetime) (lat0 lon0 : pyfloat) (twindow radius : pynum)
  : list RankedEvent :=
  sort_values (candidates t0 lat0 lon0 twindow radius).

(** Modelled from the spec: [find_nearby_events], with step 4: an empty
    ranking is signalled as [None]. *)
Definition find_nearby_events (t0 : datetime) (lat0 lon0 : pyfloat) (twindow radius : pynum)
  : result (option DataFrame) :=
  match rank t0 lat0 lon0 twindow radius with
  | [] => Ok None
  | ranked => Ok (Some (to_frame ranked))
  end.

End Rank.

End Ranker.

(* ===================================================================== *)
(** ** Concrete command lines and catalog answers *)
(* ===================================================================== *)

Module Examples.
Import Py Pandas Findid.

(** 2019-07-15T10:39:32, the time of the examples in the command's help. *)
Definition july15 : datetime := 63698783972000000.

(** [findid 2019-07-15T10:39:32 35.932 -117.715] with the given options. *)
Definition invocation (r w : option pyfloat) (a u v : bool) (o : option string)
  : Namespace :=
  {| time := july15; lat := Finite (35932 # 1000); lon := Finite (-117715 # 1000);
     radius := r; window := w;
     print_all := a; print_url := u; print_verbose := v;
     outfile := o; logfile := "stderr"; loglevel := "info" |}.

(** The same command as argparse sees it, with the latitude conversion
    left open. *)
Definition command_line (la : converted pyfloat) (a u v : bool) : CommandLine :=
  {| arg_time := Value july15; arg_lat := la;
     arg_lon := Value (Finite (-117715 # 1000));
     opt_radius := None; opt_window := None;
     opt_all := a; opt_url := u; opt_verbose := v;
     opt_outfile := None; opt_logfile := None; opt_loglevel := None;
     argv_order := [Dtime; Dlat; Dlon] |}.

(** A time that [maketime] rejects with an exception of its own: as the
    only failure, and after [-r abc] ([findid -r abc <time> 35.932
    -117.715]). *)
Definition bad_time (r : option (converted pyfloat)) (order : list dest) : CommandLine :=
  {| arg_time := Raises (OtherException "Exception");
     arg_lat := Value (Finite (35932 # 1000));
     arg_lon := Value (Finite (-117715 # 1000));
     opt_radius := r; opt_window := None;
     opt_all := false; opt_url := false; opt_verbose := false;
     opt_outfile := None; opt_logfile := None; opt_loglevel := None;
     argv_order := order |}.

(** A writer for which every path can be written, and one for which none
    can. *)
Definition writable (fmt : file_format) (df : DataFrame) (path : string)
  : result unit := Ok tt.

Definition unwritable (fmt : file_format) (df : DataFrame) (path : string)
  : result unit := Err (OtherException "OSError").

(** A catalog that finds nothing, and one that always answers with [df]. *)
Definition no_events (t : datetime) (la lo : pyfloat) (tw r : pynum)
  : result (option DataFrame) := Ok None.

Definition found (df : DataFrame) (t : datetime) (la lo : pyfloat) (tw r : pynum)
  : result (option DataFrame) := Ok (Some df).

(** A one-event answer with the columns of the output table. *)
Definition ridgecrest_row : list pyval :=
  [VStr "ci38644943"; VDatetime 63698783970000000;
   VFloat (Finite (35932 # 1000)); VFloat (Finite (-117715 # 1000));
   VFloat (Finite (23 # 10)); VFloat (Finite (32 # 10));
   VStr "https://earthquake.usgs.gov/earthquakes/eventpage/ci38644943"].

Definition ridgecrest : DataFrame :=
  {| columns := ["id"; "time"; "latitude"; "longitude"; "depth"; "magnitude"; "url"];
     rows := [ridgecrest_row] |}.

(** A catalog answer for the ranking step: four records around the
    target, one of them malformed, two of them with the same time
    difference and distance, one more than 16 s away. *)
Definition quake (name : string) (t : datetime) (la lo : Q) : Ranker.CandidateEvent :=
  {| Ranker.id := name; Ranker.time := t; Ranker.latitude := la;
     Ranker.longitude := lo; Ranker.depth := 8; Ranker.magnitude := 4;
     Ranker.url := "https://earthquake.usgs.gov/earthquakes/eventpage/" ++ name |}.

Definition raw_records : list (option Ranker.CandidateEvent) :=
  [Some (quake "nc2" (july15 + 3000000) (36 # 1) (-118 # 1));
   None;
   Some (quake "ci1" (july15 - 2000000) (36 # 1) (-118 # 1));
   Some (quake "us9" (july15 + 60000000) (36 # 1) (-118 # 1));
   Some (quake "nn3" (july15 - 3000000) (36 # 1) (-118 # 1))].

Definition service (t : datetime) (la lo : pyfloat) (tw r : pynum)
  : list (option Ranker.CandidateEvent) := raw_records.

(** A stand-in for the great-circle distance: 111 km per degree along the
    two axes. *)
Definition grid_km (la lo : pyfloat) (c : Ranker.CandidateEvent) : Q :=
  match la, lo with
  | Finite a, Finite o =>
      (111 * (Qabs (Ranker.latitude c - a) + Qabs (Ranker.longitude c - o)))%Q
  | _, _ => 0%Q
  end.

Definition due_north (la lo : pyfloat) (c : Ranker.CandidateEvent) : Q := 0%Q.

End Examples.

(* ===================================================================== *)
(** * Properties *)
(* ===================================================================== *)

Import Py OsPath Pandas Proc Findid.

#[local] Arguments str_in : simpl never.
#[local] Arguments splitext : simpl never.

(** ** os.path.splitext on sample paths *)

Example splitext_samples :
  splitext "out.csv" = ("out", ".csv") /\
  splitext "out.txt" = ("out", ".txt") /\
  splitext "runs/2019.07/events.xlsx" = ("runs/2019.07/events", ".xlsx") /\
  splitext "runs/2019.07/events" = ("runs/2019.07/events", "") /\
  splitext ".csv" = (".csv", "") /\
  splitext "archive.tar.gz" = ("archive.tar", ".gz") /\
  splitext "" = ("", "").
Proof.
  repeat split.
Qed.

(** ** The usage checks *)

Section UsageChecks.

Variable lookup :
  datetime -> pyfloat -> pyfloat -> pynum -> pynum -> result (option DataFrame).
Variable write : file_format -> DataFrame -> string -> result unit.

(** The checks either let the run go on, silently, or print one line and
    leave with status 1. *)
Lemma check_usage_cases (args : Namespace) :
  check_usage args = ([], Done tt) \/
  exists p, check_usage args = ([Stdout p], Exited 1).
Proof.
  unfold check_usage, argsum.
  destruct (print_all args), (print_url args), (print_verbose args),
    (outfile args) as [f|]; cbn; eauto;
    destruct (splitext f) as [fpath fext];
    destruct (str_in fext supported); cbn; eauto.
Qed.


(** When the checks pass, at most one mode flag is set and an output file,
    if any, comes with [-a] and a supported extension. *)
Lemma check_usage_passes (args : Namespace) :
  check_usage args = ([], Done tt) <->
  argsum args <= 1 /\
  (forall f, outfile args = Some f ->
     print_all args = true /\ str_in (snd (splitext f)) supported = true).
Proof.
  unfold check_usage, argsum.
  destruct (outfile args) as [f|].
  - destruct (splitext f) as [fpath fext] eqn:E. split.
    + intros H. split.
      * destruct (print_all args), (print_url args), (print_verbose args);
          cbn in *; try lia; discriminate H.
      * intros f' [= <-]. rewrite E. cbn.
        destruct (print_all args), (print_url args), (print_verbose args),
          (str_in fext supported); cbn in H; try discriminate H; auto.
    + intros [H1 H2]. destruct (H2 f eq_refl) as [Ha Hs].
      rewrite E in Hs. cbn in Hs. rewrite Ha in *. rewrite Hs.
      destruct (print_url args), (print_verbose args); cbn in *;
        try lia; reflexivity.
  - split.
    + intros H. split.
      * destruct (print_all args), (print_url args), (print_verbose args);
          cbn in *; try lia; discriminate H.
      * intros f [=].
    + intros [H1 _].
      destruct (print_all args), (print_url args), (print_verbose args);
        cbn in *; try lia; reflexivity.
Qed.

(** A failed check ends the run on the spot. *)
Lemma run_stops_at_usage_error (args : Namespace) (p : printable) :
  check_usage args = ([Stdout p], Exited 1) ->
  run lookup write args = ([Stdout p], Exited 1).
Proof.
  intros H. unfold run. rewrite H. reflexivity.
Qed.

(** After the checks the logger is set up and the lookup is issued with
    the parsed time and coordinates and the chosen window and radius. *)
Lemma run_after_checks (args : Namespace) :
  check_usage args = ([], Done tt) ->
  run lookup write args =
  bind (emit (SetupLogger (logfile args) (loglevel args)))
    (fun _ =>
       bind (find_nearby_events lookup (time args) (lat args) (lon args)
               (choose_twindow args) (choose_radius args))
         (fun event_df =>
            match event_df with
            | None => bind (logging_error no_events_msg) (fun _ => sys_exit 0)
            | Some df => present write args df
            end)).
Proof.
  intros H. unfold run. rewrite H. unfold setup_logger. cbn.
  destruct (lookup _ _ _ _ _) as [[df|]|e]; cbn; try reflexivity.
  destruct (present write args df); reflexivity.
Qed.

End UsageChecks.

(** ** Usage errors (C3, C6, C7) *)

Section UsageErrors.

Variable lookup :
  datetime -> pyfloat -> pyfloat -> pynum -> pynum -> result (option DataFrame).
Variable write : file_format -> DataFrame -> string -> result unit.


(** C7: an output file without -a is a usage error: one message is
    printed, the exit status is 1, and nothing else happens (no logger
    set-up, no lookup, no file). *)
Theorem C7_outfile_requires_all (args : Namespace) (f : string) :
  outfile args = Some f ->
  print_all args = false ->
  (exists msg, In msg [exclusive_msg; together_msg] /\
               trace (run lookup write args) = [Stdout (Text msg)]) /\
  outcome (run lookup write args) = Exited 1 /\
  exit_code (run lookup write args) = 1 /\
  lookups (run lookup write args) = [] /\
  exports (run lookup write args) = [].
Proof.
  intros Ho Ha.
  assert (E : exists msg, In msg [exclusive_msg; together_msg] /\
                          check_usage args = ([Stdout (Text msg)], Exited 1)).
  { unfold check_usage, argsum. rewrite Ho, Ha.
    destruct (print_url args), (print_verbose args); cbn;
      eexists; (split; [| reflexivity]); cbn; auto. }
  destruct E as (msg & Hin & E).
  rewrite (run_stops_at_usage_error lookup write args _ E).
  repeat split. exists msg. split; [exact Hin | reflexivity].
Qed.

(** C6: an output file whose extension (as [os.path.splitext] gives it)
    is neither .xlsx nor .csv is a usage error: one usage message is
    printed, the exit status is 1, no lookup is made and no file is
    written in any format. With -a as the only mode flag the message is
    the one about the unsupported extension. *)
Theorem C6_unsupported_extension_is_usage_error (args : Namespace) (f : string) :
  outfile args = Some f ->
  str_in (snd (splitext f)) supported = false ->
  (exists p,
     In p [Text exclusive_msg; Text together_msg;
           Fmt extension_fmt [VStr (snd (splitext f)); VStr str_supported]] /\
     trace (run lookup write args) = [Stdout p]) /\
  outcome (run lookup write args) = Exited 1 /\
  exit_code (run lookup write args) = 1 /\
  lookups (run lookup write args) = [] /\
  exports (run lookup write args) = [] /\
  (print_all args = true -> argsum args <= 1 ->
   trace (run lookup write args) =
   [Stdout (Fmt extension_fmt [VStr (snd (splitext f)); VStr str_supported])]).
Proof.
  intros Ho Hx.
  assert (E : exists p,
             In p [Text exclusive_msg; Text together_msg;
                   Fmt extension_fmt [VStr (snd (splitext f)); VStr str_supported]] /\
             check_usage args = ([Stdout p], Exited 1) /\
             (print_all args = true -> argsum args <= 1 ->
              p = Fmt extension_fmt [VStr (snd (splitext f)); VStr str_supported])).
  { unfold check_usage, argsum. rewrite Ho.
    destruct (splitext f) as [fpath fext]. cbn in Hx |- *. rewrite Hx.
    destruct (print_all args), (print_url args), (print_verbose args); cbn;
      eexists; (split; [| split; [reflexivity |]]); cbn; auto;
      intros; try discriminate; try lia; reflexivity. }
  destruct E as (p & Hin & E & Hp).
  rewrite (run_stops_at_usage_error lookup write args _ E).
  repeat split.
  - exists p. split; [exact Hin | reflexivity].
  - intros Ha Hs. cbn. rewrite (Hp Ha Hs). reflexivity.
Qed.

End UsageErrors.



Lemma C7_witness :
  exit_code (run Examples.no_events Examples.writable
               (Examples.invocation None None false false false (Some "out.csv"))) = 1.
Proof.
  apply (C7_outfile_requires_all Examples.no_events Examples.writable
           (Examples.invocation None None false false false (Some "out.csv"))
           "out.csv"); reflexivity.
Defined.

(** [-o out.txt -a] is rejected with the message about the extension. *)
Lemma C6_witness :
  trace (run Examples.no_events Examples.writable
           (Examples.invocation None None true false false (Some "out.txt")))
  = [Stdout (Fmt extension_fmt [VStr ".txt"; VStr str_supported])] /\
  exit_code (run Examples.no_events Examples.writable
               (Examples.invocation None None true false false (Some "out.txt"))) = 1.
Proof.
  pose proof (C6_unsupported_extension_is_usage_error Examples.no_events Examples.writable
                (Examples.invocation None None true false false (Some "out.txt"))
                "out.txt" eq_refl eq_refl) as (_ & _ & Hc & _ & _ & Ht).
  split; [apply Ht; [reflexivity | discriminate] | exact Hc].
Defined.

(** ** Traces of composed computations *)

Lemma trace_bind {A B} (m : proc A) (k : A -> proc B) :
  trace (bind m k) =
  (trace m ++ match outcome m with
              | Done a => trace (k a)
              | _ => []
              end)%list.
Proof.
  destruct m as [t [a|c|e]]; cbn; rewrite ?app_nil_r; try reflexivity.
  destruct (k a); reflexivity.
Qed.

Lemma outcome_bind {A B} (m : proc A) (k : A -> proc B) :
  outcome (bind m k) =
  match outcome m with
  | Done a => outcome (k a)
  | Exited c => Exited c
  | Raised e => Raised e
  end.
Proof.
  destruct m as [t [a|c|e]]; cbn; try reflexivity.
  destruct (k a); reflexivity.
Qed.

Lemma proc_eta {A} (m : proc A) : m = (trace m, outcome m).
Proof. destruct m; reflexivity. Qed.

Lemma bind_ret_l {A B} (a : A) (k : A -> proc B) : bind (ret a) k = k a.
Proof. unfold bind, ret. destruct (k a); reflexivity. Qed.

Lemma for_each_outputs {A} (body : A -> proc unit) (l : list A) :
  (forall x, Forall (fun e => is_output e = true) (trace (body x))) ->
  Forall (fun e => is_output e = true) (trace (for_each l body)).
Proof.
  intros Hb. induction l as [|x l IH]; cbn.
  - constructor.
  - rewrite trace_bind. apply Forall_app. split; [apply Hb |].
    destruct (outcome (body x)); [exact IH | constructor | constructor].
Qed.

#[local] Arguments bind : simpl never.

(** One step in the analysis of a composed computation: split a [bind],
    compute a primitive, or branch on the next test. *)
Ltac step_proc :=
  first
    [ rewrite trace_bind
    | rewrite outcome_bind
    | progress cbn [trace outcome fst snd lift ret raise emit print sys_exit app]
    | match goal with
      | |- context [lift ?r] => destruct r
      | |- context [if ?b then _ else _] => destruct b
      | |- context [match outfile ?a with _ => _ end] => destruct (outfile a)
      | |- context [let (_, _) := splitext ?f in _] => destruct (splitext f)
      | |- context [match outcome ?m with _ => _ end] => destruct (outcome m) as [[]| |]
      end ].

Lemma present_outputs (write : file_format -> DataFrame -> string -> result unit)
  (args : Namespace) (df : DataFrame) :
  Forall (fun e => is_output e = true) (trace (present write args df)).
Proof.
  unfold present, to_excel, to_csv.
  repeat first
    [ apply Forall_app; split
    | apply for_each_outputs; intros
    | match goal with
      | |- Forall _ [] => constructor
      | |- Forall _ (_ :: _) => constructor; [reflexivity |]
      end
    | step_proc ].
Qed.

Lemma outputs_are_no_lookups (t : list effect) :
  Forall (fun e => is_output e = true) t -> filter is_lookup t = [].
Proof.
  induction 1 as [|e t He _ IH]; cbn; [reflexivity |].
  destruct e; cbn in *; try discriminate He; exact IH.
Qed.

(** ** The lookup and its arguments (C2, C4, C5, C10) *)

Section Lookup.

Variable lookup :
  datetime -> pyfloat -> pyfloat -> pynum -> pynum -> result (option DataFrame).
Variable write : file_format -> DataFrame -> string -> result unit.

(** A run that passes the usage checks issues exactly one lookup, with
    the parsed time and coordinates as they are. *)
Lemma run_lookups (args : Namespace) :
  check_usage args = ([], Done tt) ->
  lookups (run lookup write args) =
  [FindNearbyEvents (time args) (lat args) (lon args)
     (choose_twindow args) (choose_radius args)].
Proof.
  intros H. rewrite (run_after_checks lookup write args H).
  unfold lookups, find_nearby_events, logging_error.
  repeat (rewrite ?trace_bind, ?outcome_bind;
          cbn [trace outcome fst snd emit app filter is_lookup]).
  destruct (lookup _ _ _ _ _) as [[df|]|e]; cbn [lift ret raise trace outcome fst snd];
    rewrite ?trace_bind; cbn [trace outcome fst snd emit sys_exit app];
    rewrite ?app_nil_r; cbn [filter is_lookup]; try reflexivity.
  rewrite (outputs_are_no_lookups _ (present_outputs write args df)). reflexivity.
Qed.

(** Nothing is printed or logged between the usage checks and the
    lookup: the trace starts with the logger set-up and the lookup. *)
Lemma run_starts_with_lookup (args : Namespace) :
  check_usage args = ([], Done tt) ->
  exists rest,
    trace (run lookup write args) =
    SetupLogger (logfile args) (loglevel args)
    :: FindNearbyEvents (time args) (lat args) (lon args)
         (choose_twindow args) (choose_radius args)
    :: rest.
Proof.
  intros H. rewrite (run_after_checks lookup write args H).
  unfold find_nearby_events.
  repeat (rewrite ?trace_bind, ?outcome_bind;
          cbn [trace outcome fst snd emit app]).
  eexists. reflexivity.
Qed.

(** A run whose usage checks fail issues no lookup. *)
Lemma run_no_lookup (args : Namespace) :
  check_usage args <> ([], Done tt) ->
  lookups (run lookup write args) = [] /\ exit_code (run lookup write args) = 1.
Proof.
  intros H. destruct (check_usage_cases args) as [E | [p E]]; [contradiction |].
  rewrite (run_stops_at_usage_error lookup write args p E). split; reflexivity.
Qed.

(** [main] on a command line that parses is [run] on its namespace. *)
Lemma main_parsed (cl : CommandLine) (args : Namespace) :
  parse_args cl = ([], Done args) -> main lookup write cl = run lookup write args.
Proof.
  intros H. unfold main. rewrite H. unfold bind.
  destruct (run lookup write args); reflexivity.
Qed.

End Lookup.

(** ** Parsing in argv order *)

Lemma rejected_not_done {A} (r : rejection) (a : A) : rejected r <> Done a.
Proof.
  destruct r as [e|]; cbn; [destruct (argparse_catches e) |]; discriminate.
Qed.

(** Meeting one argument: it passes silently, or the parse ends there,
    with the parser's message and status 2 or with the exception of the
    conversion. *)
Lemma check_argument_cases (cl : CommandLine) (d : dest) :
  (check_argument cl d = ([], Done tt) /\ rejection_at cl d = None) \/
  exists r,
    rejection_at cl d = Some r /\
    ((exists m, check_argument cl d = ([Stderr m], Exited 2) /\ @rejected unit r = Exited 2) \/
     (exists e, check_argument cl d = ([], Raised e) /\ @rejected unit r = Raised e /\
                argparse_catches e = false)).
Proof.
  unfold check_argument, rejection_at, get_optional, get_value, parser_error, rejected.
  destruct d.
  - destruct (arg_time cl) as [v|e]; [left; split; reflexivity |].
    right. exists (Conversion e). split; [reflexivity |].
    destruct (argparse_catches e) eqn:C;
      [left; eexists; split; reflexivity | right; exists e; repeat split; exact C].
  - destruct (arg_lat cl) as [v|e]; [left; split; reflexivity |].
    right. exists (Conversion e). split; [reflexivity |].
    destruct (argparse_catches e) eqn:C;
      [left; eexists; split; reflexivity | right; exists e; repeat split; exact C].
  - destruct (arg_lon cl) as [v|e]; [left; split; reflexivity |].
    right. exists (Conversion e). split; [reflexivity |].
    destruct (argparse_catches e) eqn:C;
      [left; eexists; split; reflexivity | right; exists e; repeat split; exact C].
  - destruct (opt_radius cl) as [[v|e]|];
      [left; split; reflexivity | | left; split; reflexivity].
    right. exists (Conversion e). split; [reflexivity |].
    destruct (argparse_catches e) eqn:C;
      [left; eexists; split; reflexivity | right; exists e; repeat split; exact C].
  - destruct (opt_window cl) as [[v|e]|];
      [left; split; reflexivity | | left; split; reflexivity].
    right. exists (Conversion e). split; [reflexivity |].
    destruct (argparse_catches e) eqn:C;
      [left; eexists; split; reflexivity | right; exists e; repeat split; exact C].
  - destruct (opt_loglevel cl) as [l|]; [| left; split; reflexivity].
    destruct (str_in l loglevel_choices); [left; split; reflexivity |].
    right. exists Choice. split; [reflexivity |].
    left. eexists. split; reflexivity.
Qed.

(** Meeting the arguments of a list one after the other: all pass, or the
    parse ends at the first one that fails. *)
Lemma checks_cases (cl : CommandLine) (l : list dest) :
  (for_each l (check_argument cl) = ([], Done tt) /\ first_rejection cl l = None) \/
  exists r,
    first_rejection cl l = Some r /\
    ((exists m, for_each l (check_argument cl) = ([Stderr m], Exited 2) /\
                @rejected unit r = Exited 2) \/
     (exists e, for_each l (check_argument cl) = ([], Raised e) /\
                @rejected unit r = Raised e /\ argparse_catches e = false)).
Proof.
  induction l as [|d l IH]; [left; split; reflexivity |].
  cbn [for_each first_rejection].
  destruct (check_argument_cases cl d) as [[Hc Hr] | (r & Hr & H)]; rewrite Hr.
  - rewrite Hc. change ([], Done tt) with (@ret unit tt). rewrite bind_ret_l. exact IH.
  - right. exists r. split; [reflexivity |].
    destruct H as [(m & Hc & Hx) | (e & Hc & Hx & C)]; rewrite Hc.
    + left. exists m. split; [reflexivity | exact Hx].
    + right. exists e. repeat split; assumption.
Qed.

(** [parse_args] is [build_namespace] when every argument met passes, and
    ends at the first failure otherwise. *)
Lemma parse_args_decompose (cl : CommandLine) :
  (parse_args cl = build_namespace cl /\ first_rejection cl (argv_order cl) = None) \/
  exists r,
    first_rejection cl (argv_order cl) = Some r /\
    ((exists m, parse_args cl = ([Stderr m], Exited 2) /\ @rejected Namespace r = Exited 2) \/
     (exists e, parse_args cl = ([], Raised e) /\ @rejected Namespace r = Raised e /\
                argparse_catches e = false)).
Proof.
  unfold parse_args.
  destruct (checks_cases cl (argv_order cl)) as [[Hc Hr] | (r & Hr & H)].
  - left. rewrite Hc. change ([], Done tt) with (@ret unit tt).
    rewrite bind_ret_l. split; [reflexivity | exact Hr].
  - right. exists r. split; [exact Hr |].
    destruct H as [(m & Hc & Hx) | (e & Hc & Hx & C)]; rewrite Hc.
    + left. exists m. split; [reflexivity |].
      destruct r as [e|]; cbn in *; [destruct (argparse_catches e) |]; congruence.
    + right. exists e. repeat split; [| exact C].
      destruct r as [e'|]; cbn in *; [destruct (argparse_catches e') |]; congruence.
Qed.

(** What a built namespace says about the command line: every conversion
    succeeded, and the namespace holds the converted values unchanged. *)
Lemma build_namespace_inv (cl : CommandLine) (t : list effect) (args : Namespace) :
  build_namespace cl = (t, Done args) ->
  t = [] /\
  arg_time cl = Value (time args) /\
  arg_lat cl = Value (lat args) /\
  arg_lon cl = Value (lon args) /\
  opt_radius cl = option_map Value (radius args) /\
  opt_window cl = option_map Value (window args) /\
  print_all args = opt_all cl /\
  print_url args = opt_url cl /\
  print_verbose args = opt_verbose cl /\
  outfile args = opt_outfile cl.
Proof.
  unfold build_namespace, get_optional, get_value, parser_error.
  destruct (arg_time cl) as [t0|e]; [| destruct (argparse_catches e); discriminate].
  destruct (arg_lat cl) as [la|e]; [| destruct (argparse_catches e); discriminate].
  destruct (arg_lon cl) as [lo|e]; [| destruct (argparse_catches e); discriminate].
  destruct (opt_radius cl) as [[r|e]|]; [| destruct (argparse_catches e); discriminate |];
    (destruct (opt_window cl) as [[w|e]|]; [| destruct (argparse_catches e); discriminate |]);
    (destruct (opt_loglevel cl) as [l|]; [destruct (str_in l loglevel_choices); [| discriminate] |]);
    intros [= <- <-]; cbn; repeat split.
Qed.

(** What a successful parse says about the command line: every conversion
    succeeded, and the namespace holds the converted values unchanged. *)
Lemma parse_args_inv (cl : CommandLine) (t : list effect) (args : Namespace) :
  parse_args cl = (t, Done args) ->
  t = [] /\
  arg_time cl = Value (time args) /\
  arg_lat cl = Value (lat args) /\
  arg_lon cl = Value (lon args) /\
  opt_radius cl = option_map Value (radius args) /\
  opt_window cl = option_map Value (window args) /\
  print_all args = opt_all cl /\
  print_url args = opt_url cl /\
  print_verbose args = opt_verbose cl /\
  outfile args = opt_outfile cl.
Proof.
  intros H.
  destruct (parse_args_decompose cl) as [[Hb _] | (r & _ & [(m & Hp & _) | (e & Hp & _)])].
  - rewrite Hb in H. exact (build_namespace_inv cl t args H).
  - rewrite Hp in H. discriminate H.
  - rewrite Hp in H. discriminate H.
Qed.

Lemma float_truthy_false (f : pyfloat) :
  float_truthy f = false <-> float_is_zero f.
Proof.
  unfold float_is_zero. destruct f as [q| |]; cbn.
  - rewrite negb_false_iff, Z.eqb_eq. split.
    + intros H. exists q. split; [reflexivity |].
      unfold Qeq. cbn. rewrite H. reflexivity.
    + intros (q' & [= <-] & H). unfold Qeq in H. cbn in H. lia.
  - split; [discriminate | intros (q & [=] & _)].
  - split; [discriminate | intros (q & [=] & _)].
Qed.

Lemma float_truthy_true (f : pyfloat) :
  float_truthy f = true <-> ~ float_is_zero f.
Proof.
  rewrite <- float_truthy_false. destruct (float_truthy f); split;
    congruence.
Qed.

Section LookupArguments.

Variable lookup :
  datetime -> pyfloat -> pyfloat -> pynum -> pynum -> result (option DataFrame).
Variable write : file_format -> DataFrame -> string -> result unit.

(** C2 (amended): no range check is made on the coordinates. For every
    command line that parses and passes the usage checks, the latitude and
    longitude that [float] produced are handed unchanged to
    [find_nearby_events], whatever their value, in the one lookup of the
    run. *)
Theorem C2_coordinates_reach_lookup_unchecked (cl : CommandLine) (args : Namespace) :
  parse_args cl = ([], Done args) ->
  check_usage args = ([], Done tt) ->
  arg_lat cl = Value (lat args) /\
  arg_lon cl = Value (lon args) /\
  lookups (main lookup write cl) =
  [FindNearbyEvents (time args) (lat args) (lon args)
     (choose_twindow args) (choose_radius args)].
Proof.
  intros Hp Hu.
  destruct (parse_args_inv cl [] args Hp) as (_ & _ & Hla & Hlo & _).
  rewrite (main_parsed lookup write cl args Hp), (run_lookups lookup write args Hu).
  auto.
Qed.

(** The whole run when the lookup finds nothing. *)
Lemma run_no_match (args : Namespace) :
  check_usage args = ([], Done tt) ->
  lookup (time args) (lat args) (lon args) (choose_twindow args) (choose_radius args)
  = Ok None ->
  run lookup write args =
  ([SetupLogger (logfile args) (loglevel args);
    FindNearbyEvents (time args) (lat args) (lon args)
      (choose_twindow args) (choose_radius args);
    LogError no_events_msg], Exited 0).
Proof.
  intros Hu Hl. rewrite (run_after_checks lookup write args Hu).
  unfold find_nearby_events. rewrite Hl. reflexivity.
Qed.

(** C5: when the lookup finds nothing ([find_nearby_events] returns
    [None]), the run logs the no-events message at error level and leaves
    through [sys.exit(0)]: exit status 0, no exception, nothing on
    standard output. *)
Theorem C5_no_match_exits_zero (args : Namespace) :
  check_usage args = ([], Done tt) ->
  lookup (time args) (lat args) (lon args) (choose_twindow args) (choose_radius args)
  = Ok None ->
  trace (run lookup write args) =
  [SetupLogger (logfile args) (loglevel args);
   FindNearbyEvents (time args) (lat args) (lon args)
     (choose_twindow args) (choose_radius args);
   LogError no_events_msg] /\
  outcome (run lookup write args) = Exited 0 /\
  exit_code (run lookup write args) = 0 /\
  stdout (run lookup write args) = [].
Proof.
  intros Hu Hl. rewrite (run_no_match args Hu Hl). repeat split.
Qed.

(** C10: the window and radius handed to the lookup. A supplied value
    that is zero is replaced by the default (16 s, 100 km), because the
    option is tested for truth and not for presence; any other supplied
    value is used as given. The replacement is silent: the lookup is the
    first thing the run does after setting up the logger. *)
Theorem C10_zero_option_falls_back_to_default (args : Namespace) :
  check_usage args = ([], Done tt) ->
  exists tw r,
    lookups (run lookup write args) =
    [FindNearbyEvents (time args) (lat args) (lon args) tw r] /\
    (exists rest,
       trace (run lookup write args) =
       SetupLogger (logfile args) (loglevel args)
       :: FindNearbyEvents (time args) (lat args) (lon args) tw r :: rest) /\
    (forall w, window args = Some w ->
       (float_is_zero w -> tw = NInt 16) /\
       (~ float_is_zero w -> tw = NFloat w)) /\
    (forall x, radius args = Some x ->
       (float_is_zero x -> r = NInt 100) /\
       (~ float_is_zero x -> r = NFloat x)).
Proof.
  intros Hu. exists (choose_twindow args), (choose_radius args).
  split; [apply run_lookups; exact Hu |].
  split; [apply run_starts_with_lookup; exact Hu |].
  unfold choose_twindow, choose_radius. split.
  - intros w ->. split; intros H.
    + apply float_truthy_false in H. rewrite H. reflexivity.
    + apply float_truthy_true in H. rewrite H. reflexivity.
  - intros x ->. split; intros H.
    + apply float_truthy_false in H. rewrite H. reflexivity.
    + apply float_truthy_true in H. rewrite H. reflexivity.
Qed.

End LookupArguments.

(** A latitude of 91 degrees parses, reaches the lookup as it is, and the
    run ends normally (here with no event found): no validation error. *)
Lemma C2_latitude_91_is_looked_up :
  lookups (main Examples.no_events Examples.writable
             (Examples.command_line (Value (Finite 91)) false false false))
  = [FindNearbyEvents Examples.july15 (Finite 91) (Finite (-117715 # 1000))
       (NInt 16) (NInt 100)] /\
  outcome (main Examples.no_events Examples.writable
             (Examples.command_line (Value (Finite 91)) false false false))
  = Exited 0.
Proof.
  split; reflexivity.
Qed.

Lemma C2_witness :
  lookups (main (Examples.found Examples.ridgecrest) Examples.writable
             (Examples.command_line (Value (Finite (-91))) false true false))
  = [FindNearbyEvents Examples.july15 (Finite (-91)) (Finite (-117715 # 1000))
       (NInt 16) (NInt 100)].
Proof.
  apply (C2_coordinates_reach_lookup_unchecked (Examples.found Examples.ridgecrest) Examples.writable
           (Examples.command_line (Value (Finite (-91))) false true false)
           {| time := Examples.july15; lat := Finite (-91);
              lon := Finite (-117715 # 1000); radius := None; window := None;
              print_all := false; print_url := true; print_verbose := false;
              outfile := None; logfile := "stderr"; loglevel := "info" |});
    reflexivity.
Defined.

Lemma C5_witness :
  exit_code (run Examples.no_events Examples.writable
               (Examples.invocation None None false false false None)) = 0.
Proof.
  apply (C5_no_match_exits_zero Examples.no_events Examples.writable
           (Examples.invocation None None false false false None));
    reflexivity.
Defined.

(** [-w 0 -r 250]: the zero window becomes 16, the radius stays 250. *)
Lemma C10_witness :
  exists tw r,
    lookups (run Examples.no_events Examples.writable
               (Examples.invocation (Some (Finite 250)) (Some (Finite 0))
                  false false false None))
    = [FindNearbyEvents Examples.july15 (Finite (35932 # 1000))
         (Finite (-117715 # 1000)) tw r] /\
    tw = NInt 16 /\ r = NFloat (Finite 250).
Proof.
  destruct (C10_zero_option_falls_back_to_default Examples.no_events Examples.writable
              (Examples.invocation (Some (Finite 250)) (Some (Finite 0))
                 false false false None) eq_refl)
    as (tw & r & Hl & _ & Hw & Hr).
  exists tw, r. split; [exact Hl |]. split.
  - apply (Hw (Finite 0) eq_refl). exists 0%Q. split; reflexivity.
  - apply (Hr (Finite 250) eq_refl). intros (q & [= <-] & H). discriminate H.
Defined.

(** C4 at [-r 0 -w 0]: the supplied zeros are not used; the lookup gets
    the defaults. *)
Lemma C4_supplied_zero_is_not_used :
  lookups (run Examples.no_events Examples.writable
             (Examples.invocation (Some (Finite 0)) (Some (Finite 0))
                false false false None))
  = [FindNearbyEvents Examples.july15 (Finite (35932 # 1000))
       (Finite (-117715 # 1000)) (NInt 16) (NInt 100)].
Proof.
  reflexivity.
Qed.

(** ** The default mode (C9) *)

Section DefaultMode.

Variable lookup :
  datetime -> pyfloat -> pyfloat -> pynum -> pynum -> result (option DataFrame).
Variable write : file_format -> DataFrame -> string -> result unit.

(** C9, what the code does: with none of -a, -u, -v, when the lookup
    returns a frame whose first row holds a string under [id], line 183
    asks that string for [.values] and raises [AttributeError]: nothing is
    printed and the process ends with a traceback (exit status 1). *)
Theorem C9_default_mode_raises_on_string_id
  (args : Namespace) (df : DataFrame) (row : list pyval) (rest : list (list pyval))
  (s : string) :
  check_usage args = ([], Done tt) ->
  print_all args = false -> print_url args = false -> print_verbose args = false ->
  lookup (time args) (lat args) (lon args) (choose_twindow args) (choose_radius args)
  = Ok (Some df) ->
  rows df = row :: rest ->
  getitem (mkSeries (columns df) row) "id" = Ok (VStr s) ->
  outcome (run lookup write args) = Raised AttributeError /\
  exit_code (run lookup write args) = 1 /\
  stdout (run lookup write args) = [].
Proof.
  intros Hu Ha Hurl Hv Hl Hr Hid.
  rewrite (run_after_checks lookup write args Hu).
  unfold find_nearby_events. rewrite Hl.
  cbv beta iota delta [bind emit lift ret].
  unfold present, to_excel, to_csv, iloc0. rewrite Hr, Ha, Hurl, Hv.
  cbv beta iota delta [bind emit lift ret]. rewrite Hid. repeat split.
Qed.

End DefaultMode.

Lemma C9_witness :
  outcome (run (Examples.found Examples.ridgecrest) Examples.writable
             (Examples.invocation None None false false false None))
  = Raised AttributeError.
Proof.
  apply (C9_default_mode_raises_on_string_id (Examples.found Examples.ridgecrest) Examples.writable
           (Examples.invocation None None false false false None)
           Examples.ridgecrest Examples.ridgecrest_row [] "ci38644943");
    reflexivity.
Defined.

(** On the same answer the verbose and URL modes read [nearest['id']] and
    [nearest['url']] as plain values and print them. *)
Example verbose_and_url_modes_print :
  stdout (run (Examples.found Examples.ridgecrest) Examples.writable
            (Examples.invocation None None false true false None))
  = [Obj (VStr "https://earthquake.usgs.gov/earthquakes/eventpage/ci38644943")] /\
  hd_error (stdout (run (Examples.found Examples.ridgecrest) Examples.writable
                      (Examples.invocation None None false false true None)))
  = Some (Fmt "Event %s" [VStr "ci38644943"]).
Proof.
  split; reflexivity.
Qed.

(** [.values[0]] does give the identifier when [nearest['id']] is itself a
    Series, as it is when the frame has the label [id] twice. *)
Example default_mode_on_repeated_id_label :
  run (Examples.found (mkFrame ["id"; "id"] [[VStr "ci38644943"; VStr "us70004bn0"]])) Examples.writable
    (Examples.invocation None None false false false None)
  = ([SetupLogger "stderr" "info";
      FindNearbyEvents Examples.july15 (Finite (35932 # 1000))
        (Finite (-117715 # 1000)) (NInt 16) (NInt 100);
      Stdout (Obj (VStr "ci38644943"))], Done tt).
Proof.
  reflexivity.
Qed.

(** ** Exit codes (C8) *)

Lemma first_rejection_app (cl : CommandLine) (l1 l2 : list dest) :
  first_rejection cl (l1 ++ l2) =
  match first_rejection cl l1 with
  | Some r => Some r
  | None => first_rejection cl l2
  end.
Proof.
  induction l1 as [|d l1 IH]; cbn; [reflexivity |].
  destruct (rejection_at cl d); [reflexivity | exact IH].
Qed.

Lemma build_namespace_rejection (cl : CommandLine) :
  match first_rejection cl [Dtime; Dlat; Dlon; Dradius; Dwindow; Dloglevel] with
  | Some r => outcome (build_namespace cl) = rejected r
  | None => exists args, build_namespace cl = ([], Done args)
  end.
Proof.
  unfold build_namespace, get_optional, get_value, parser_error.
  cbn [first_rejection rejection_at].
  destruct (arg_time cl) as [t|e0];
    [| cbn; destruct (argparse_catches e0); reflexivity].
  destruct (arg_lat cl) as [la|e0];
    [| cbn; destruct (argparse_catches e0); reflexivity].
  destruct (arg_lon cl) as [lo|e0];
    [| cbn; destruct (argparse_catches e0); reflexivity].
  destruct (opt_radius cl) as [[r|e0]|];
    [| cbn; destruct (argparse_catches e0); reflexivity |];
    (destruct (opt_window cl) as [[w|e0]|];
     [| cbn; destruct (argparse_catches e0); reflexivity |]);
    (destruct (opt_loglevel cl) as [l|];
     [destruct (str_in l loglevel_choices); [| reflexivity] |]);
    eexists; reflexivity.
Qed.

(** The parse ends as its first failing argument says, and succeeds when
    no argument fails. *)
Lemma parse_args_first_failure (cl : CommandLine) :
  match first_failure cl with
  | Some r => outcome (parse_args cl) = rejected r
  | None => exists args, parse_args cl = ([], Done args)
  end.
Proof.
  unfold first_failure. rewrite first_rejection_app.
  destruct (parse_args_decompose cl)
    as [[Hb Hr] | (r & Hr & [(m & Hp & Hx) | (e & Hp & Hx & _)])]; rewrite Hr.
  - rewrite Hb. apply build_namespace_rejection.
  - rewrite Hp, Hx. reflexivity.
  - rewrite Hp, Hx. reflexivity.
Qed.

Lemma select_of_label (key : string) (idx : list string) (items : list pyval) :
  In key idx -> List.length items = List.length idx -> select key idx items <> [].
Proof.
  revert items. induction idx as [|k idx IH]; intros items Hin Hlen; [destruct Hin |].
  destruct items as [|v items]; [discriminate Hlen |].
  cbn. destruct (String.eqb_spec k key) as [-> | Hne]; [discriminate |].
  destruct Hin as [-> | Hin]; [contradiction |].
  apply IH; [exact Hin | now injection Hlen].
Qed.

Lemma getitem_of_label (s : Series) (key : string) :
  In key (index s) -> List.length (data s) = List.length (index s) ->
  exists v, getitem s key = Ok v.
Proof.
  intros Hin Hlen. unfold getitem.
  pose proof (select_of_label key (index s) (data s) Hin Hlen) as H.
  destruct (select key (index s) (data s)) as [|v [|v' vs]]; [contradiction | eauto | eauto].
Qed.

Lemma list_remove_of_member (x : string) (l : list string) :
  In x l -> exists r, list_remove x l = Ok r /\ incl r l.
Proof.
  induction l as [|y l IH]; intros Hin; [destruct Hin |].
  cbn. destruct (String.eqb_spec y x) as [-> | Hne].
  - exists l. split; [reflexivity | apply incl_tl, incl_refl].
  - destruct Hin as [-> | Hin]; [contradiction |].
    destruct (IH Hin) as (r & -> & Hincl). exists (y :: r). split; [reflexivity |].
    intros z [<- | Hz]; [left; reflexivity | right; apply Hincl, Hz].
Qed.

Lemma for_each_completes {A} (body : A -> proc unit) (l : list A) :
  (forall x, In x l -> outcome (body x) = Done tt) ->
  outcome (for_each l body) = Done tt.
Proof.
  induction l as [|x l IH]; intros H; cbn [for_each]; [reflexivity |].
  rewrite outcome_bind, (H x (or_introl eq_refl)).
  apply IH. intros y Hy. apply H. right. exact Hy.
Qed.

(** With exactly one of -a, -u, -v, a frame with the event columns is
    presented and the run leaves through [sys.exit(0)]. *)
Lemma present_exits_zero (write : file_format -> DataFrame -> string -> result unit)
  (args : Namespace) (df : DataFrame) :
  has_event_columns df -> argsum args = 1 -> export_succeeds write args df ->
  outcome (present write args df) = Exited 0.
Proof.
  intros (row & rest & Hr & Hlen & Hid & Hurl) Hsum Hw.
  unfold present, to_excel, to_csv, iloc0. rewrite Hr. unfold argsum in Hsum.
  set (nearest := {| index := columns df; data := row |}).
  destruct (getitem_of_label nearest "id" Hid Hlen) as [vid Egid].
  destruct (getitem_of_label nearest "url" Hurl Hlen) as [vurl Egurl].
  destruct (list_remove_of_member "id" (index nearest) Hid) as (cols & Ecols & Hincl).
  destruct (print_all args), (print_url args), (print_verbose args);
    cbn in Hsum; try lia; clear Hsum.
  - unfold export_succeeds, format_of in Hw.
    destruct (outfile args) as [f|]; [| repeat step_proc; reflexivity].
    specialize (Hw f eq_refl).
    destruct (String.eqb f ""); [repeat step_proc; reflexivity |].
    destruct (splitext f) as [fpath fext]. cbn [snd] in Hw.
    destruct (String.eqb fext ".xlsx");
      repeat (rewrite ?bind_ret_l, ?outcome_bind, ?Hw;
              cbn [outcome lift ret print emit sys_exit snd]);
      reflexivity.
  - repeat (rewrite ?bind_ret_l; cbn [lift]). rewrite Egurl.
    repeat (rewrite ?bind_ret_l, ?outcome_bind; cbn [outcome lift ret print emit snd]).
    reflexivity.
  - repeat (rewrite ?bind_ret_l; cbn [lift]). rewrite Egid.
    repeat (rewrite ?bind_ret_l, ?outcome_bind; cbn [outcome lift ret print emit snd]).
    rewrite Ecols.
    repeat (rewrite ?bind_ret_l, ?outcome_bind; cbn [outcome lift ret print emit snd]).
    rewrite for_each_completes; [reflexivity |].
    intros col Hcol. rewrite outcome_bind.
    destruct (getitem_of_label nearest col (Hincl col Hcol) Hlen) as [v ->].
    reflexivity.
Qed.

Section ExitCodes.

Variable lookup :
  datetime -> pyfloat -> pyfloat -> pynum -> pynum -> result (option DataFrame).
Variable write : file_format -> DataFrame -> string -> result unit.

Lemma exit_code_main (cl : CommandLine) :
  exit_code (main lookup write cl) =
  match outcome (parse_args cl) with
  | Done args => exit_code (run lookup write args)
  | Exited c => c
  | Raised _ => 1
  end.
Proof.
  unfold main, exit_code. rewrite outcome_bind.
  destruct (outcome (parse_args cl)); reflexivity.
Qed.

(** C8 (amended): the exit status of [main].
    - The arguments are converted in the order they stand on the command
      line, and the first one that fails decides: status 2 when argparse
      intercepts the exception ([ValueError], [TypeError],
      [ArgumentTypeError]: a latitude that is not a number, say) or the
      [--loglevel] is not a valid choice, and status 1 (traceback) when
      the exception is of another class. When no argument fails the
      command line parses.
    - After a successful parse, a failed usage check gives status 1, a
      lookup that finds nothing gives status 0, and a found frame shown in
      one of the modes -a, -u, -v gives status 0, provided the file that
      -a -o asks for can be written. *)
Theorem C8_exit_codes (cl : CommandLine) :
  (forall r, first_failure cl = Some r ->
     exit_code (main lookup write cl) =
     match r with
     | Conversion e => if argparse_catches e then 2 else 1
     | Choice => 2
     end) /\
  (first_failure cl = None -> exists args, parse_args cl = ([], Done args)) /\
  (forall args, parse_args cl = ([], Done args) ->
     (check_usage args <> ([], Done tt) -> exit_code (main lookup write cl) = 1) /\
     (check_usage args = ([], Done tt) ->
        (lookup (time args) (lat args) (lon args)
           (choose_twindow args) (choose_radius args) = Ok None ->
         exit_code (main lookup write cl) = 0) /\
        (forall df,
           lookup (time args) (lat args) (lon args)
             (choose_twindow args) (choose_radius args) = Ok (Some df) ->
           has_event_columns df -> argsum args = 1 ->
           export_succeeds write args df ->
           exit_code (main lookup write cl) = 0))).
Proof.
  split; [| split].
  - intros r Hr. rewrite exit_code_main.
    pose proof (parse_args_first_failure cl) as H. rewrite Hr in H. rewrite H.
    destruct r as [e|]; cbn; [destruct (argparse_catches e) |]; reflexivity.
  - intros Hn. pose proof (parse_args_first_failure cl) as H. rewrite Hn in H.
    exact H.
  - intros args Hp. rewrite (main_parsed lookup write cl args Hp). split.
    + intros Hu. apply run_no_lookup, Hu.
    + intros Hu. split.
      * intros Hl. rewrite (run_no_match lookup write args Hu Hl). reflexivity.
      * intros df Hl Hdf Hsum Hw. rewrite (run_after_checks lookup write args Hu).
        unfold exit_code, find_nearby_events. rewrite Hl.
        repeat (rewrite ?outcome_bind; cbn [outcome emit lift ret snd]).
        rewrite (present_exits_zero write args df Hdf Hsum Hw). reflexivity.
Qed.

End ExitCodes.

(** A latitude that [float] cannot convert makes argparse leave with
    status 2, not 1. *)
Lemma C8_bad_latitude_exits_2 :
  exit_code (main Examples.no_events Examples.writable
               (Examples.command_line (Raises ValueError) false false false)) = 2 /\
  exit_code (main Examples.no_events Examples.writable
               (Examples.command_line (Raises ValueError) false false false)) <> 1.
Proof.
  split; [reflexivity | discriminate].
Qed.

(** The kinds of exit on concrete command lines: a time that [maketime]
    rejects with an exception of its own (status 1); the same time after
    [-r abc], where argparse stops at the radius (status 2); [-a -u]
    (status 1); and a found event shown with [-u] (status 0). *)
Lemma C8_witness :
  exit_code (main Examples.no_events Examples.writable
               (Examples.bad_time None [Dtime; Dlat; Dlon])) = 1 /\
  exit_code (main Examples.no_events Examples.writable
               (Examples.bad_time (Some (Raises ValueError))
                  [Dradius; Dtime; Dlat; Dlon])) = 2 /\
  exit_code (main (Examples.found Examples.ridgecrest) Examples.writable
               (Examples.command_line (Value (Finite (35932 # 1000))) true true false)) = 1 /\
  exit_code (main (Examples.found Examples.ridgecrest) Examples.writable
               (Examples.command_line (Value (Finite (35932 # 1000))) false true false)) = 0.
Proof.
  split; [| split; [| split]].
  - apply (proj1 (C8_exit_codes Examples.no_events Examples.writable
                    (Examples.bad_time None [Dtime; Dlat; Dlon]))
             (Conversion (OtherException "Exception"))).
    reflexivity.
  - apply (proj1 (C8_exit_codes Examples.no_events Examples.writable
                    (Examples.bad_time (Some (Raises ValueError))
                       [Dradius; Dtime; Dlat; Dlon]))
             (Conversion ValueError)).
    reflexivity.
  - destruct (C8_exit_codes (Examples.found Examples.ridgecrest) Examples.writable
                (Examples.command_line (Value (Finite (35932 # 1000)))
                   true true false)) as (_ & _ & H).
    destruct (H (Examples.invocation None None true true false None) eq_refl)
      as [Hbad _].
    apply Hbad. discriminate.
  - destruct (C8_exit_codes (Examples.found Examples.ridgecrest) Examples.writable
                (Examples.command_line (Value (Finite (35932 # 1000)))
                   false true false)) as (_ & _ & H).
    destruct (H (Examples.invocation None None false true false None) eq_refl)
      as [_ Hok].
    destruct (Hok eq_refl) as [_ Hfound].
    apply (Hfound Examples.ridgecrest); [reflexivity | | reflexivity |].
    + exists Examples.ridgecrest_row, []. cbn. intuition.
    + intros f Hf. discriminate Hf.
Defined.

(** ** The ranked result set (C1) *)

Module RankerFacts.
Import Ranker.
#[local] Open Scope Q_scope.

Lemma key_leb_iff (a b : RankedEvent) : key_leb a b = true <-> key_le a b.
Proof.
  unfold key_leb, key_le.
  destruct (Qcompare_spec (time_delta_s a) (time_delta_s b)) as [E | L | G];
    rewrite ?Qle_bool_iff; split; intros H; try discriminate H; auto.
  - destruct H as [H | [_ H]]; [lra | exact H].
  - destruct H as [H | [H _]]; lra.
Qed.

Lemma key_leb_total (a b : RankedEvent) : key_leb a b = false -> key_leb b a = true.
Proof.
  intros H. apply key_leb_iff.
  assert (N : ~ key_le a b) by (rewrite <- key_leb_iff, H; discriminate).
  unfold key_le in *.
  destruct (Qlt_le_dec (time_delta_s b) (time_delta_s a)) as [L | L]; [left; exact L |].
  destruct (Qlt_le_dec (time_delta_s a) (time_delta_s b)) as [L' | L']; [tauto |].
  right. split; [lra |].
  destruct (Qlt_le_dec (distance_km a) (distance_km b)) as [D | D]; [| exact D].
  exfalso. apply N. right. split; lra.
Qed.

Lemma key_le_trans (a b c : RankedEvent) : key_le a b -> key_le b c -> key_le a c.
Proof.
  unfold key_le. intros [H1 | [H1 D1]] [H2 | [H2 D2]];
    [left; lra | left; lra | left; lra | right; split; lra].
Qed.

Lemma same_key_iff (a b : RankedEvent) :
  same_key a b = true <->
  time_delta_s a == time_delta_s b /\ distance_km a == distance_km b.
Proof.
  unfold same_key. rewrite andb_true_iff, !key_leb_iff. unfold key_le. split.
  - intros [[H1 | [H1 D1]] [H2 | [H2 D2]]]; split; lra.
  - intros [H D]. split; right; split; lra.
Qed.

Lemma insert_permutation (x : RankedEvent) (l : list RankedEvent) :
  Permutation (insert x l) (x :: l).
Proof.
  induction l as [|y l IH]; cbn; [apply Permutation_refl |].
  destruct (key_leb x y); [apply Permutation_refl |].
  apply perm_trans with (y :: x :: l); [apply perm_skip, IH | apply perm_swap].
Qed.

Lemma sort_values_permutation (l : list RankedEvent) :
  Permutation (sort_values l) l.
Proof.
  induction l as [|x l IH]; cbn; [constructor |].
  apply perm_trans with (x :: sort_values l);
    [apply insert_permutation | apply perm_skip, IH].
Qed.

Lemma insert_hd (y x : RankedEvent) (l : list RankedEvent) :
  key_le y x -> HdRel key_le y l -> HdRel key_le y (insert x l).
Proof.
  intros Hyx Hl. destruct l as [|z l]; cbn; [constructor; exact Hyx |].
  destruct (key_leb x z); constructor; [exact Hyx |].
  inversion Hl; assumption.
Qed.

Lemma insert_sorted (x : RankedEvent) (l : list RankedEvent) :
  Sorted key_le l -> Sorted key_le (insert x l).
Proof.
  induction 1 as [|y l Hs IH Hh]; cbn; [repeat constructor |].
  destruct (key_leb x y) eqn:E.
  - constructor; [constructor; assumption |].
    constructor. apply key_leb_iff, E.
  - constructor; [exact IH |].
    apply insert_hd; [apply key_leb_iff, key_leb_total, E | exact Hh].
Qed.

Lemma sort_values_sorted (l : list RankedEvent) : Sorted key_le (sort_values l).
Proof.
  induction l as [|x l IH]; cbn; [constructor | apply insert_sorted, IH].
Qed.

Lemma sort_values_strongly_sorted (l : list RankedEvent) :
  StronglySorted key_le (sort_values l).
Proof.
  apply Sorted_StronglySorted; [| apply sort_values_sorted].
  intros a b c. apply key_le_trans.
Qed.

(** Insertion keeps the order of the elements that share a key. *)
Lemma insert_stable (k x : RankedEvent) (l : list RankedEvent) :
  filter (same_key k) (insert x l) = filter (same_key k) (x :: l).
Proof.
  induction l as [|y l IH]; [reflexivity |].
  cbn [insert]. destruct (key_leb x y) eqn:E; [reflexivity |].
  cbn [filter] in IH |- *. rewrite IH.
  destruct (same_key k y) eqn:Ky; [| reflexivity].
  destruct (same_key k x) eqn:Kx; [| reflexivity].
  exfalso.
  apply same_key_iff in Ky. apply same_key_iff in Kx.
  assert (F : key_le x y) by (unfold key_le; right; split; lra).
  apply key_leb_iff in F. congruence.
Qed.

Lemma sort_values_stable (k : RankedEvent) (l : list RankedEvent) :
  filter (same_key k) (sort_values l) = filter (same_key k) l.
Proof.
  induction l as [|x l IH]; [reflexivity |].
  cbn [sort_values]. rewrite insert_stable. cbn [filter]. rewrite IH. reflexivity.
Qed.

End RankerFacts.

Section RankedResult.
Import RankerFacts.

Variable haversine : pyfloat -> pyfloat -> Ranker.CandidateEvent -> Q.
Variable bearing : pyfloat -> pyfloat -> Ranker.CandidateEvent -> Q.
Variable fetch :
  datetime -> pyfloat -> pyfloat -> pynum -> pynum -> list (option Ranker.CandidateEvent).
Variable write : file_format -> DataFrame -> string -> result unit.

#[local] Abbreviation lookup := (Ranker.find_nearby_events haversine bearing fetch).
#[local] Abbreviation in_reach args :=
  (Ranker.candidates haversine bearing fetch (time args) (lat args) (lon args)
     (choose_twindow args) (choose_radius args)).

Lemma key_le_refl (a : Ranker.RankedEvent) : Ranker.key_le a a.
Proof.
  unfold Ranker.key_le. right. split; [reflexivity | apply Qle_refl].
Qed.

(** C1: when the lookup returns a frame, that frame is the table of the
    candidates within reach, sorted ascending by (time_delta_s,
    distance_km) with candidates of equal key left in encounter order; its
    first row is a candidate no other candidate precedes; and [run] hands
    this frame to the presenter as it is: -a prints it whole, and -u and -v
    print the URL and the identifier of row 0. *)
Theorem C1_ranked_frame_sorted_nearest_first (args : Namespace) (df : DataFrame) :
  check_usage args = ([], Done tt) ->
  lookup (time args) (lat args) (lon args) (choose_twindow args) (choose_radius args)
  = Ok (Some df) ->
  exists first rest,
    df = Ranker.to_frame (first :: rest) /\
    StronglySorted Ranker.key_le (first :: rest) /\
    Permutation (first :: rest) (in_reach args) /\
    (forall k, filter (Ranker.same_key k) (first :: rest)
               = filter (Ranker.same_key k) (in_reach args)) /\
    (forall e, In e (in_reach args) -> Ranker.key_le first e) /\
    iloc0 df = Ok (mkSeries Ranker.frame_columns (Ranker.to_row first)) /\
    (print_all args = true -> outfile args = None ->
     stdout (run lookup write args) = [Frame df]) /\
    (print_all args = false -> print_verbose args = false -> print_url args = true ->
     stdout (run lookup write args) = [Obj (VStr (Ranker.url (Ranker.event first)))]) /\
    (print_all args = false -> print_verbose args = true ->
     hd_error (stdout (run lookup write args))
     = Some (Fmt "Event %s" [VStr (Ranker.id (Ranker.event first))])).
Proof.
  intros Hu Hl. pose proof Hl as Hl'. unfold Ranker.find_nearby_events in Hl'.
  destruct (Ranker.rank haversine bearing fetch (time args) (lat args) (lon args)
              (choose_twindow args) (choose_radius args))
    as [|first rest] eqn:E; [discriminate Hl' |].
  injection Hl' as <-. unfold Ranker.rank in E.
  assert (Hs : StronglySorted Ranker.key_le (first :: rest))
    by (rewrite <- E; apply sort_values_strongly_sorted).
  assert (Hp : Permutation (first :: rest) (in_reach args))
    by (rewrite <- E; apply sort_values_permutation).
  exists first, rest. repeat split.
  - exact Hs.
  - exact Hp.
  - intros k. rewrite <- E. apply sort_values_stable.
  - intros e He.
    apply (Permutation_in _ (Permutation_sym Hp)) in He.
    destruct He as [<- | He]; [apply key_le_refl |].
    apply StronglySorted_inv in Hs. destruct Hs as [_ Hf].
    rewrite Forall_forall in Hf. apply Hf, He.
  - intros Ha Ho. rewrite (run_after_checks _ write args Hu).
    unfold find_nearby_events. rewrite Hl.
    cbv beta iota delta [bind emit lift ret].
    unfold present, to_excel, to_csv, iloc0. cbn [rows Ranker.to_frame List.map]. rewrite Ha, Ho.
    reflexivity.
  - intros Ha Hv Hurl. rewrite (run_after_checks _ write args Hu).
    unfold find_nearby_events. rewrite Hl.
    cbv beta iota delta [bind emit lift ret].
    unfold present, to_excel, to_csv, iloc0. cbn [rows Ranker.to_frame List.map]. rewrite Ha, Hv, Hurl.
    reflexivity.
  - intros Ha Hv. rewrite (run_after_checks _ write args Hu).
    unfold find_nearby_events. rewrite Hl.
    cbv beta iota delta [bind emit lift ret].
    unfold present, to_excel, to_csv, iloc0. cbn [rows Ranker.to_frame List.map]. rewrite Ha, Hv.
    reflexivity.
Qed.

End RankedResult.

(** The example answer, ranked: the record 2 s away comes first, the two
    records 3 s away keep the order the service gave them, the malformed
    record and the one 60 s away are gone. *)
Example ranked_example :
  List.map (fun r => Ranker.id (Ranker.event r))
    (Ranker.rank Examples.grid_km Examples.due_north Examples.service
       Examples.july15 (Finite (35932 # 1000)) (Finite (-117715 # 1000))
       (NInt 16) (NInt 100))
  = ["ci1"; "nc2"; "nn3"].
Proof.
  vm_compute. reflexivity.
Qed.

(** On the example answer the frame is sorted, its first row is the
    record 2 s away, and -u prints the URL of that record. *)
Lemma C1_witness :
  exists first rest,
    Ranker.id (Ranker.event first) = "ci1" /\
    StronglySorted Ranker.key_le (first :: rest) /\
    stdout (run (Ranker.find_nearby_events Examples.grid_km Examples.due_north
                   Examples.service) Examples.writable
              (Examples.invocation None None false true false None))
    = [Obj (VStr (Ranker.url (Ranker.event first)))].
Proof.
  destruct (C1_ranked_frame_sorted_nearest_first
              Examples.grid_km Examples.due_north Examples.service Examples.writable
              (Examples.invocation None None false true false None)
              (Ranker.to_frame
                 (Ranker.rank Examples.grid_km Examples.due_north Examples.service
                    Examples.july15 (Finite (35932 # 1000)) (Finite (-117715 # 1000))
                    (NInt 16) (NInt 100)))
              eq_refl eq_refl)
    as (first & rest & _ & Hs & _ & _ & _ & Hrow & _ & Hurl & _).
  exists first, rest.
  vm_compute in Hrow. injection Hrow as Hid.
  repeat split.
  - symmetry. exact Hid.
  - exact Hs.
  - exact (Hurl eq_refl eq_refl eq_refl).
Defined.

(** ** Exported files *)

Lemma for_each_forall {A} (P : effect -> Prop) (body : A -> proc unit) (l : list A) :
  (forall x, Forall P (trace (body x))) ->
  Forall P (trace (for_each l body)).
Proof.
  intros Hb. induction l as [|x l IH]; cbn [for_each].
  - constructor.
  - rewrite trace_bind. apply Forall_app. split; [apply Hb |].
    destruct (outcome (body x)); [exact IH | constructor | constructor].
Qed.

Lemma supported_not_xlsx (fext : string) :
  str_in fext supported = true -> String.eqb fext ".xlsx" = false -> fext = ".csv".
Proof.
  unfold str_in, supported. cbn [existsb]. intros H E. rewrite E in H.
  rewrite orb_false_l, orb_false_r in H. apply String.eqb_eq, H.
Qed.

Lemma present_exports (write : file_format -> DataFrame -> string -> result unit)
  (args : Namespace) (df : DataFrame) :
  (forall f, outfile args = Some f -> str_in (snd (splitext f)) supported = true) ->
  Forall (export_matches args) (trace (present write args df)).
Proof.
  intros Hsup. unfold present, to_excel, to_csv.
  destruct (outfile args) as [f|] eqn:Eo.
  - specialize (Hsup f eq_refl).
    destruct (splitext f) as [fpath fext] eqn:Es. cbn [snd] in Hsup.
    destruct (String.eqb fext ".xlsx") eqn:Ex.
    + apply String.eqb_eq in Ex.
      assert (Hx : export_matches args (ToExcel df f))
        by (cbn; rewrite Es; auto).
      repeat first
        [ apply Forall_app; split
        | apply for_each_forall; intros
        | match goal with
          | |- Forall _ [] => constructor
          | |- Forall _ (ToExcel _ _ :: _) => constructor; [exact Hx |]
          | |- Forall _ (_ :: _) => constructor; [exact I |]
          end
        | step_proc ].
    + assert (Hc : export_matches args (ToCsv df f))
        by (cbn; rewrite Es; split; [exact Eo | apply supported_not_xlsx; assumption]).
      repeat first
        [ apply Forall_app; split
        | apply for_each_forall; intros
        | match goal with
          | |- Forall _ [] => constructor
          | |- Forall _ (ToCsv _ _ :: _) => constructor; [exact Hc |]
          | |- Forall _ (_ :: _) => constructor; [exact I |]
          end
        | step_proc ].
  - repeat first
      [ apply Forall_app; split
      | apply for_each_forall; intros
      | match goal with
        | |- Forall _ [] => constructor
        | |- Forall _ (_ :: _) => constructor; [exact I |]
        end
      | step_proc ].
Qed.

Section Exports.

Variable lookup :
  datetime -> pyfloat -> pyfloat -> pynum -> pynum -> result (option DataFrame).
Variable write : file_format -> DataFrame -> string -> result unit.

(** X1: whatever the run does, every [to_excel] or [to_csv] call it makes
    is for the path named by -o, [to_excel] when the extension of that
    path is .xlsx and [to_csv] when it is .csv; the frame is never
    exported to a path with another extension. (The log file that
    [setup_logger] may open is no such call.) *)
Theorem exports_match_extension (args : Namespace) :
  Forall (export_matches args) (trace (run lookup write args)).
Proof.
  destruct (check_usage_cases args) as [E | [p E]].
  - pose proof (proj1 (check_usage_passes args) E) as [_ Hsup].
    rewrite (run_after_checks lookup write args E). unfold find_nearby_events, logging_error.
    repeat first
      [ apply Forall_app; split
      | apply present_exports; intros f Hf; apply (Hsup f Hf)
      | match goal with
        | |- Forall _ [] => constructor
        | |- Forall _ (_ :: _) => constructor; [exact I |]
        | |- context [match ?o with Some _ => _ | None => _ end] => destruct o
        end
      | step_proc ].
  - rewrite (run_stops_at_usage_error lookup write args p E).
    constructor; [exact I | constructor].
Qed.

End Exports.

(* ===================================================================== *)
(** * Further properties of [main] *)
(* ===================================================================== *)

(** ** How the presenter can end *)

Lemma select_absent (key : string) (idx : list string) (items : list pyval) :
  ~ In key idx -> select key idx items = [].
Proof.
  revert items. induction idx as [|k idx IH]; intros items Hn; [reflexivity |].
  destruct items as [|v items]; [reflexivity |]. cbn.
  destruct (String.eqb_spec k key) as [-> | _].
  - exfalso. apply Hn. left. reflexivity.
  - apply IH. intros H. apply Hn. right. exact H.
Qed.

Lemma getitem_absent (s : Series) (key : string) :
  ~ In key (index s) -> getitem s key = Err KeyError.
Proof.
  intros H. unfold getitem. rewrite (select_absent key _ _ H). reflexivity.
Qed.

Lemma getitem_error (s : Series) (key : string) (e : exn) :
  getitem s key = Err e -> e = KeyError.
Proof.
  unfold getitem. destruct (select key (index s) (data s)) as [|v [|v' vs]];
    intros [=]; congruence.
Qed.

Lemma select_member (key : string) (idx : list string) (items : list pyval) :
  select key idx items <> [] -> In key idx.
Proof.
  revert items. induction idx as [|k idx IH]; intros items H; [destruct items; contradiction |].
  destruct items as [|v items]; [contradiction |]. cbn in H.
  destruct (String.eqb_spec k key) as [-> | _]; [left; reflexivity |].
  right. apply (IH items H).
Qed.

Lemma getitem_member (s : Series) (key : string) (v : pyval) :
  getitem s key = Ok v -> In key (index s).
Proof.
  unfold getitem. intros H. apply (select_member key (index s) (data s)).
  destruct (select key (index s) (data s)); [discriminate H | discriminate].
Qed.

Lemma for_each_outcome {A} (body : A -> proc unit) (l : list A) :
  outcome (for_each l body) = Done tt \/
  exists x, In x l /\ outcome (for_each l body) = outcome (body x) /\
            outcome (body x) <> Done tt.
Proof.
  induction l as [|x l IH]; cbn [for_each]; [left; reflexivity |].
  rewrite outcome_bind. destruct (outcome (body x)) as [[]|c|e] eqn:E.
  - destruct IH as [IH | (y & Hy & Ho & Hn)]; [left; exact IH |].
    right. exists y. split; [right; exact Hy | split; assumption].
  - right. exists x. split; [left; reflexivity |].
    rewrite E. split; [reflexivity | discriminate].
  - right. exists x. split; [left; reflexivity |].
    rewrite E. split; [reflexivity | discriminate].
Qed.

(** The loop of the verbose mode ends normally or in [KeyError]. *)
Lemma verbose_loop_outcome (nearest : Series) (cols : list string) :
  let body := fun col : string =>
    bind (lift (getitem nearest col))
      (fun v => print (Fmt "  %s : %s" [VStr col; v])) in
  outcome (for_each cols body) = Done tt \/
  outcome (for_each cols body) = Raised KeyError.
Proof.
  intros body. destruct (for_each_outcome body cols) as [H | (x & _ & Ho & Hn)];
    [left; exact H |].
  right. rewrite Ho. unfold body in *. rewrite outcome_bind in Hn |- *.
  destruct (getitem nearest x) as [v|e] eqn:E; cbn [lift outcome ret raise snd] in *.
  - exfalso. apply Hn. reflexivity.
  - rewrite (getitem_error _ _ _ E). reflexivity.
Qed.

Lemma present_outcome (write : file_format -> DataFrame -> string -> result unit)
  (args : Namespace) (df : DataFrame) :
  outcome (present write args df) = Exited 0 \/
  (outcome (present write args df) = Done tt /\
   print_all args = false /\ print_url args = false /\ print_verbose args = false) \/
  outcome (present write args df) = Raised IndexError \/
  outcome (present write args df) = Raised KeyError \/
  outcome (present write args df) = Raised AttributeError \/
  exists f e,
    print_all args = true /\ outfile args = Some f /\
    write (format_of f) df f = Err e /\
    outcome (present write args df) = Raised e.
Proof.
  unfold present, to_excel, to_csv, iloc0.
  destruct (rows df) as [|row rest]; [right; right; left; reflexivity |].
  cbn [lift]. rewrite bind_ret_l.
  set (nearest := {| index := columns df; data := row |}).
  destruct (print_all args).
  { destruct (outfile args) as [f|]; [| left; reflexivity].
    destruct (String.eqb f ""); [left; reflexivity |].
    destruct (splitext f) as [fpath fext] eqn:Es.
    destruct (String.eqb fext ".xlsx") eqn:Ex.
    - destruct (write Xlsx df f) as [[]|e] eqn:Ew; [left; reflexivity |].
      do 5 right. exists f, e. unfold format_of. rewrite Es. cbn [snd]. rewrite Ex.
      repeat split. exact Ew.
    - destruct (write Csv df f) as [[]|e] eqn:Ew; [left; reflexivity |].
      do 5 right. exists f, e. unfold format_of. rewrite Es. cbn [snd]. rewrite Ex.
      repeat split. exact Ew. }
  rewrite bind_ret_l.
  destruct (print_verbose args).
  { destruct (getitem nearest "id") as [vid|e] eqn:Eg.
    - destruct (list_remove_of_member "id" (index nearest)
                  (getitem_member nearest "id" vid Eg)) as (cols & Ec & _).
      rewrite Ec.
      repeat (rewrite ?bind_ret_l, ?outcome_bind;
              cbn [outcome lift ret print emit snd]).
      destruct (verbose_loop_outcome nearest cols) as [-> | ->]; cbn; auto.
    - rewrite (getitem_error _ _ _ Eg).
      right; right; right; left. reflexivity. }
  rewrite bind_ret_l.
  destruct (print_url args).
  { destruct (getitem nearest "url") as [u|e] eqn:Eg.
    - left. reflexivity.
    - rewrite (getitem_error _ _ _ Eg).
      right; right; right; left. reflexivity. }
  rewrite bind_ret_l.
  destruct (getitem nearest "id") as [v|e] eqn:Eg.
  - cbn [lift]. rewrite bind_ret_l.
    destruct v; try (right; right; right; right; left; reflexivity).
    cbn [values lift]. rewrite bind_ret_l.
    destruct items as [|x items].
    + right; right; left. reflexivity.
    + right; left. repeat split.
  - rewrite (getitem_error _ _ _ Eg).
    right; right; right; left. reflexivity.
Qed.

Lemma build_namespace_outcome (cl : CommandLine) :
  (exists args, build_namespace cl = ([], Done args)) \/
  outcome (build_namespace cl) = Exited 2 \/
  (exists e, build_namespace cl = ([], Raised e) /\ argparse_catches e = false).
Proof.
  unfold build_namespace, get_optional, get_value, parser_error.
  destruct (arg_time cl) as [t|e0];
    [| destruct (argparse_catches e0) eqn:C; [right; left; reflexivity | right; right; exists e0; split; [reflexivity | exact C]]].
  destruct (arg_lat cl) as [la|e0];
    [| destruct (argparse_catches e0) eqn:C; [right; left; reflexivity | right; right; exists e0; split; [reflexivity | exact C]]].
  destruct (arg_lon cl) as [lo|e0];
    [| destruct (argparse_catches e0) eqn:C; [right; left; reflexivity | right; right; exists e0; split; [reflexivity | exact C]]].
  destruct (opt_radius cl) as [[r|e0]|];
    [| destruct (argparse_catches e0) eqn:C; [right; left; reflexivity | right; right; exists e0; split; [reflexivity | exact C]] |];
    (destruct (opt_window cl) as [[w|e0]|];
     [| destruct (argparse_catches e0) eqn:C; [right; left; reflexivity | right; right; exists e0; split; [reflexivity | exact C]] |]);
    (destruct (opt_loglevel cl) as [l|];
     [destruct (str_in l loglevel_choices); [| right; left; reflexivity] |]);
    left; eexists; reflexivity.
Qed.

Lemma parse_args_outcome (cl : CommandLine) :
  (exists args, parse_args cl = ([], Done args)) \/
  outcome (parse_args cl) = Exited 2 \/
  (exists e, parse_args cl = ([], Raised e) /\ argparse_catches e = false).
Proof.
  destruct (parse_args_decompose cl)
    as [[Hb _] | (r & _ & [(m & Hp & _) | (e & Hp & _ & C)])].
  - rewrite Hb. apply build_namespace_outcome.
  - right; left. rewrite Hp. reflexivity.
  - right; right. exists e. split; assumption.
Qed.

Section Endings.

Variable lookup :
  datetime -> pyfloat -> pyfloat -> pynum -> pynum -> result (option DataFrame).
Variable write : file_format -> DataFrame -> string -> result unit.

(** The ways a run can end, by cases on the usage checks, the answer of
    the lookup and the presenter. *)
Lemma run_outcome_cases (args : Namespace) :
  outcome (run lookup write args) = Exited 0 \/
  outcome (run lookup write args) = Exited 1 \/
  (outcome (run lookup write args) = Done tt /\
   print_all args = false /\ print_url args = false /\ print_verbose args = false) \/
  exists e,
    outcome (run lookup write args) = Raised e /\
    (e = IndexError \/ e = KeyError \/ e = AttributeError \/
     lookup (time args) (lat args) (lon args) (choose_twindow args) (choose_radius args)
     = Err e \/
     exists df f,
       lookup (time args) (lat args) (lon args) (choose_twindow args) (choose_radius args)
       = Ok (Some df) /\
       print_all args = true /\ outfile args = Some f /\
       write (format_of f) df f = Err e).
Proof.
  destruct (check_usage_cases args) as [E | [p E]].
  - rewrite (run_after_checks lookup write args E). unfold find_nearby_events, logging_error.
    repeat (rewrite ?outcome_bind; cbn [outcome emit snd]).
    destruct (lookup _ _ _ _ _) as [[df|]|e] eqn:El; cbn [lift outcome ret raise snd].
    + destruct (present_outcome write args df)
        as [H | [[H F] | [H | [H | [H | (f & e & Ha & Ho & Hw & H)]]]]];
        rewrite H; eauto 10.
      right; right; right. exists e. split; [reflexivity |].
      do 4 right. exists df, f. repeat split; assumption.
    + rewrite outcome_bind. left. reflexivity.
    + right; right; right. exists e. split; [reflexivity |].
      right; right; right; left. reflexivity.
  - rewrite (run_stops_at_usage_error lookup write args p E). right; left. reflexivity.
Qed.

(** X2: every way a run can end. It leaves through [sys.exit] with 0 or
    1, or returns normally (only possible in the default mode), or dies on
    an exception; the exception is one the lookup raised, one
    [to_excel] or [to_csv] raised while -a -o writes the frame, or
    [IndexError], [KeyError] or [AttributeError] from reading the frame.
    In particular [cols.remove('id')] on line 174 never raises its
    [ValueError]. ([setup_logger] is taken to return.) *)
Theorem run_endings (args : Namespace) :
  outcome (run lookup write args) = Exited 0 \/
  outcome (run lookup write args) = Exited 1 \/
  (outcome (run lookup write args) = Done tt /\
   print_all args = false /\ print_url args = false /\ print_verbose args = false) \/
  exists e,
    outcome (run lookup write args) = Raised e /\
    (e = IndexError \/ e = KeyError \/ e = AttributeError \/
     lookup (time args) (lat args) (lon args) (choose_twindow args) (choose_radius args)
     = Err e \/
     exists df f,
       lookup (time args) (lat args) (lon args) (choose_twindow args) (choose_radius args)
       = Ok (Some df) /\
       print_all args = true /\ outfile args = Some f /\
       write (format_of f) df f = Err e).
Proof.
  exact (run_outcome_cases args).
Qed.

(** X3: the exit status of [main] is 0, 1 or 2, and it is 2 exactly when
    argparse rejects the command line: no path of the code after parsing
    ends with status 2. *)
Theorem main_exit_status (cl : CommandLine) :
  In (exit_code (main lookup write cl)) [0; 1; 2] /\
  (exit_code (main lookup write cl) = 2 <-> outcome (parse_args cl) = Exited 2).
Proof.
  rewrite exit_code_main.
  destruct (parse_args_outcome cl) as [[args H] | [H | [e [H _]]]]; rewrite H;
    cbn [outcome snd].
  - assert (R : exit_code (run lookup write args) = 0 \/ exit_code (run lookup write args) = 1).
    { unfold exit_code.
      destruct (run_outcome_cases args) as [E | [E | [[E _] | [e [E _]]]]]; rewrite E; auto. }
    split.
    + destruct R as [-> | ->]; cbn; auto.
    + split; [destruct R as [-> | ->]; discriminate | discriminate].
  - split; [cbn; auto | tauto].
  - split; [cbn; auto | split; discriminate].
Qed.

(** X4: a frame with no rows makes every mode fail. Line 157 reads row 0
    before the mode is looked at, so even -a, which needs no single row,
    dies on [IndexError]: nothing is printed and no file is written. *)
Theorem empty_frame_raises_index_error (args : Namespace) (df : DataFrame) :
  check_usage args = ([], Done tt) ->
  lookup (time args) (lat args) (lon args) (choose_twindow args) (choose_radius args)
  = Ok (Some df) ->
  rows df = [] ->
  run lookup write args =
  ([SetupLogger (logfile args) (loglevel args);
    FindNearbyEvents (time args) (lat args) (lon args)
      (choose_twindow args) (choose_radius args)],
   Raised IndexError).
Proof.
  intros Hu Hl Hr. rewrite (run_after_checks lookup write args Hu).
  unfold find_nearby_events. rewrite Hl.
  cbv beta iota delta [bind emit lift ret].
  unfold present, to_excel, to_csv, iloc0. rewrite Hr. reflexivity.
Qed.

(** X5: an exception raised by [find_nearby_events] is not handled: the
    run ends with that same exception right after the call, with nothing
    printed or logged about it. *)
Theorem lookup_exception_is_not_handled (args : Namespace) (e : exn) :
  check_usage args = ([], Done tt) ->
  lookup (time args) (lat args) (lon args) (choose_twindow args) (choose_radius args)
  = Err e ->
  run lookup write args =
  ([SetupLogger (logfile args) (loglevel args);
    FindNearbyEvents (time args) (lat args) (lon args)
      (choose_twindow args) (choose_radius args)],
   Raised e).
Proof.
  intros Hu Hl. rewrite (run_after_checks lookup write args Hu).
  unfold find_nearby_events. rewrite Hl. reflexivity.
Qed.

(** X6: a frame that lacks the column a single-event mode reads. With a
    row to read, -v and the default mode die on [KeyError] when there is no
    [id] column, and -u when there is no [url] column; in each case before
    anything is printed. *)
Theorem missing_column_raises_key_error
  (args : Namespace) (df : DataFrame) (row : list pyval) (rest : list (list pyval)) :
  check_usage args = ([], Done tt) ->
  lookup (time args) (lat args) (lon args) (choose_twindow args) (choose_radius args)
  = Ok (Some df) ->
  rows df = row :: rest ->
  print_all args = false ->
  (if print_verbose args then ~ In "id" (columns df)
   else if print_url args then ~ In "url" (columns df)
   else ~ In "id" (columns df)) ->
  outcome (run lookup write args) = Raised KeyError /\
  stdout (run lookup write args) = [].
Proof.
  intros Hu Hl Hr Ha Hc. rewrite (run_after_checks lookup write args Hu).
  unfold find_nearby_events. rewrite Hl.
  cbv beta iota delta [bind emit lift ret].
  unfold present, to_excel, to_csv, iloc0. rewrite Hr, Ha.
  cbv beta iota delta [bind emit lift ret].
  destruct (print_verbose args).
  - rewrite (getitem_absent {| index := columns df; data := row |} "id" Hc).
    split; reflexivity.
  - destruct (print_url args).
    + rewrite (getitem_absent {| index := columns df; data := row |} "url" Hc).
      split; reflexivity.
    + rewrite (getitem_absent {| index := columns df; data := row |} "id" Hc).
      split; reflexivity.
Qed.

End Endings.

(** ** When the lookup is made, and with what *)

Lemma build_namespace_trace (cl : CommandLine) :
  trace (build_namespace cl) = [] \/ exists m, trace (build_namespace cl) = [Stderr m].
Proof.
  unfold build_namespace, get_optional, get_value, parser_error.
  destruct (arg_time cl) as [t|e0];
    [| destruct (argparse_catches e0); [right; eexists; reflexivity | left; reflexivity]].
  destruct (arg_lat cl) as [la|e0];
    [| destruct (argparse_catches e0); [right; eexists; reflexivity | left; reflexivity]].
  destruct (arg_lon cl) as [lo|e0];
    [| destruct (argparse_catches e0); [right; eexists; reflexivity | left; reflexivity]].
  destruct (opt_radius cl) as [[r|e0]|];
    [| destruct (argparse_catches e0); [right; eexists; reflexivity | left; reflexivity] |];
    (destruct (opt_window cl) as [[w|e0]|];
     [| destruct (argparse_catches e0); [right; eexists; reflexivity | left; reflexivity] |]);
    (destruct (opt_loglevel cl) as [l|];
     [destruct (str_in l loglevel_choices); [| right; eexists; reflexivity] |]);
    left; reflexivity.
Qed.

Lemma parse_args_trace (cl : CommandLine) :
  trace (parse_args cl) = [] \/ exists m, trace (parse_args cl) = [Stderr m].
Proof.
  destruct (parse_args_decompose cl)
    as [[Hb _] | (r & _ & [(m & Hp & _) | (e & Hp & _)])].
  - rewrite Hb. apply build_namespace_trace.
  - right. exists m. rewrite Hp. reflexivity.
  - left. rewrite Hp. reflexivity.
Qed.

(** What a successful parse puts under [logfile] and [loglevel]. *)
Lemma build_namespace_logging (cl : CommandLine) (args : Namespace) :
  build_namespace cl = ([], Done args) ->
  logfile args = match opt_logfile cl with Some f => f | None => "stderr" end /\
  loglevel args = match opt_loglevel cl with Some l => l | None => "info" end /\
  str_in (loglevel args) loglevel_choices = true.
Proof.
  unfold build_namespace, get_optional, get_value, parser_error.
  destruct (arg_time cl) as [t0|e]; [| destruct (argparse_catches e); discriminate].
  destruct (arg_lat cl) as [la|e]; [| destruct (argparse_catches e); discriminate].
  destruct (arg_lon cl) as [lo|e]; [| destruct (argparse_catches e); discriminate].
  destruct (opt_radius cl) as [[r|e]|]; [| destruct (argparse_catches e); discriminate |];
    (destruct (opt_window cl) as [[w|e]|]; [| destruct (argparse_catches e); discriminate |]);
    (destruct (opt_loglevel cl) as [l|];
     [destruct (str_in l loglevel_choices) eqn:C; [| discriminate] |]);
    intros [= <-]; cbn; repeat split; try exact C.
Qed.

Lemma parse_args_logging (cl : CommandLine) (args : Namespace) :
  parse_args cl = ([], Done args) ->
  logfile args = match opt_logfile cl with Some f => f | None => "stderr" end /\
  loglevel args = match opt_loglevel cl with Some l => l | None => "info" end /\
  str_in (loglevel args) loglevel_choices = true.
Proof.
  intros H.
  destruct (parse_args_decompose cl)
    as [[Hb _] | (r & _ & [(m & Hp & _) | (e & Hp & _)])].
  - rewrite Hb in H. exact (build_namespace_logging cl args H).
  - rewrite Hp in H. discriminate H.
  - rewrite Hp in H. discriminate H.
Qed.

Lemma build_namespace_cases (cl : CommandLine) :
  (exists args, build_namespace cl = ([], Done args)) \/
  (exists m, build_namespace cl = ([Stderr m], Exited 2)) \/
  (exists e, build_namespace cl = ([], Raised e) /\ argparse_catches e = false).
Proof.
  unfold build_namespace, get_optional, get_value, parser_error.
  destruct (arg_time cl) as [t|e0];
    [| destruct (argparse_catches e0) eqn:C;
       [right; left; eexists; reflexivity
       | right; right; exists e0; split; [reflexivity | exact C]]].
  destruct (arg_lat cl) as [la|e0];
    [| destruct (argparse_catches e0) eqn:C;
       [right; left; eexists; reflexivity
       | right; right; exists e0; split; [reflexivity | exact C]]].
  destruct (arg_lon cl) as [lo|e0];
    [| destruct (argparse_catches e0) eqn:C;
       [right; left; eexists; reflexivity
       | right; right; exists e0; split; [reflexivity | exact C]]].
  destruct (opt_radius cl) as [[r|e0]|];
    [| destruct (argparse_catches e0) eqn:C;
       [right; left; eexists; reflexivity
       | right; right; exists e0; split; [reflexivity | exact C]] |];
    (destruct (opt_window cl) as [[w|e0]|];
     [| destruct (argparse_catches e0) eqn:C;
        [right; left; eexists; reflexivity
        | right; right; exists e0; split; [reflexivity | exact C]] |]);
    (destruct (opt_loglevel cl) as [l|];
     [destruct (str_in l loglevel_choices); [| right; left; eexists; reflexivity] |]);
    left; eexists; reflexivity.
Qed.

(** The three ways a parse can end, with what it has written by then. *)
Lemma parse_args_cases (cl : CommandLine) :
  (exists args, parse_args cl = ([], Done args)) \/
  (exists m, parse_args cl = ([Stderr m], Exited 2)) \/
  (exists e, parse_args cl = ([], Raised e) /\ argparse_catches e = false).
Proof.
  destruct (parse_args_decompose cl)
    as [[Hb _] | (r & _ & [(m & Hp & _) | (e & Hp & _ & C)])].
  - rewrite Hb. apply build_namespace_cases.
  - right; left. exists m. exact Hp.
  - right; right. exists e. split; assumption.
Qed.

Lemma no_setup_after_lookup (rest : list effect) :
  Forall (fun e => is_output e = true \/ e = LogError no_events_msg) rest ->
  filter (fun e => match e with SetupLogger _ _ => true | _ => false end) rest = [].
Proof.
  induction 1 as [|e rest He _ IH]; [reflexivity |].
  cbn. destruct He as [He | ->]; [| exact IH].
  destruct e; cbn in He; try discriminate He; exact IH.
Qed.

Section LookupConditions.

Variable lookup :
  datetime -> pyfloat -> pyfloat -> pynum -> pynum -> result (option DataFrame).
Variable write : file_format -> DataFrame -> string -> result unit.

(** The trace of a run that passes the usage checks: the logger set-up,
    the lookup, then only output or the no-events log line. *)
Lemma run_trace_shape (args : Namespace) :
  check_usage args = ([], Done tt) ->
  exists rest,
    trace (run lookup write args) =
    SetupLogger (logfile args) (loglevel args)
    :: FindNearbyEvents (time args) (lat args) (lon args)
         (choose_twindow args) (choose_radius args)
    :: rest /\
    Forall (fun e => is_output e = true \/ e = LogError no_events_msg) rest.
Proof.
  intros H. rewrite (run_after_checks lookup write args H).
  unfold find_nearby_events, logging_error.
  repeat (rewrite ?trace_bind, ?outcome_bind;
          cbn [trace outcome fst snd emit app]).
  eexists. split; [reflexivity |].
  destruct (lookup _ _ _ _ _) as [[df|]|e]; cbn [lift trace outcome ret raise fst snd app].
  - eapply Forall_impl; [| apply (present_outputs write args df)]. cbn. auto.
  - rewrite trace_bind. cbn. constructor; [right; reflexivity | constructor].
  - constructor.
Qed.

(** X7: the catalog is asked exactly when the invocation passes the
    three usage checks, and then exactly once (no retry, no widening);
    otherwise it is never asked. *)
Theorem lookup_exactly_when_usage_ok (args : Namespace) :
  (usage_ok args <->
   lookups (run lookup write args) =
   [FindNearbyEvents (time args) (lat args) (lon args)
      (choose_twindow args) (choose_radius args)]) /\
  (~ usage_ok args <-> lookups (run lookup write args) = []).
Proof.
  unfold usage_ok. rewrite <- (check_usage_passes args).
  destruct (check_usage_cases args) as [E | [p E]].
  - rewrite (run_lookups lookup write args E). split; split; intros H.
    + reflexivity.
    + exact E.
    + contradiction.
    + discriminate H.
  - rewrite (run_stops_at_usage_error lookup write args p E), E. split; split; intros H.
    + discriminate H.
    + discriminate H.
    + reflexivity.
    + discriminate.
Qed.

(** X8: the lookup is never given a zero window or a zero radius, whatever
    the command line says. *)
Theorem lookup_bounds_are_never_zero
  (args : Namespace) (t : datetime) (la lo : pyfloat) (tw r : pynum) :
  In (FindNearbyEvents t la lo tw r) (trace (run lookup write args)) ->
  ~ num_is_zero tw /\ ~ num_is_zero r.
Proof.
  intros Hin.
  assert (Hf : In (FindNearbyEvents t la lo tw r) (lookups (run lookup write args)))
    by (unfold lookups; apply filter_In; split; [exact Hin | reflexivity]).
  destruct (check_usage_cases args) as [E | [p E]].
  - rewrite (run_lookups lookup write args E) in Hf.
    destruct Hf as [[= _ _ _ <- <-] | []].
    unfold choose_twindow, choose_radius. split.
    + destruct (window args) as [w|]; [| cbn; discriminate].
      destruct (float_truthy w) eqn:T; [| cbn; discriminate].
      cbn. apply float_truthy_true, T.
    + destruct (radius args) as [x|]; [| cbn; discriminate].
      destruct (float_truthy x) eqn:T; [| cbn; discriminate].
      cbn. apply float_truthy_true, T.
  - rewrite (run_stops_at_usage_error lookup write args p E) in Hf. destruct Hf.
Qed.

(** X9: a command line that does not parse makes [main] do nothing of
    its own: nothing on standard output, no logger set-up, no lookup, no
    [to_excel] or [to_csv] call. Either argparse reports the error (its
    message on standard error, status 2), or the exception of the
    conversion leaves [main] uncaught (status 1, with the traceback the
    interpreter prints for it). *)
Theorem rejected_command_line_does_nothing (cl : CommandLine) :
  (forall args, outcome (parse_args cl) <> Done args) ->
  stdout (main lookup write cl) = [] /\
  lookups (main lookup write cl) = [] /\
  exports (main lookup write cl) = [] /\
  (forall f l, ~ In (SetupLogger f l) (trace (main lookup write cl))) /\
  ((exists m, main lookup write cl = ([Stderr m], Exited 2)) \/
   (exists e, main lookup write cl = ([], Raised e) /\ argparse_catches e = false)).
Proof.
  intros Hn. unfold main.
  destruct (parse_args_cases cl) as [[args H] | [[m H] | [e [H C]]]]; rewrite H in *.
  - exfalso. apply (Hn args). reflexivity.
  - repeat split; try reflexivity.
    + intros f l [Hin | []]. discriminate Hin.
    + left. exists m. reflexivity.
  - repeat split; try reflexivity.
    + intros f l [].
    + right. exists e. split; [reflexivity | exact C].
Qed.

(** X10: the logger is set up at most once, only in a run that passed the
    usage checks, with the file named by --logfile (stderr when absent)
    and a level among the four choices (info when absent). *)
Theorem logger_setup (cl : CommandLine) (file level : string) :
  In (SetupLogger file level) (trace (main lookup write cl)) ->
  file = match opt_logfile cl with Some f => f | None => "stderr" end /\
  level = match opt_loglevel cl with Some l => l | None => "info" end /\
  In level loglevel_choices /\
  List.length (filter (fun e => match e with SetupLogger _ _ => true | _ => false end)
                 (trace (main lookup write cl))) = 1%nat /\
  exists args, parse_args cl = ([], Done args) /\ usage_ok args.
Proof.
  intros Hin.
  destruct (parse_args_outcome cl) as [[args H] | [H | [e [H _]]]].
  - rewrite (main_parsed lookup write cl args H) in *.
    destruct (parse_args_logging cl args H) as (Hf & Hl & Hc).
    destruct (check_usage_cases args) as [E | [p E]].
    + destruct (run_trace_shape args E) as (rest & Ht & Hrest).
      assert (Hnone : forall f l, ~ In (SetupLogger f l) rest).
      { intros f l Hi. rewrite Forall_forall in Hrest.
        destruct (Hrest _ Hi) as [Ho | Ho]; discriminate Ho. }
      pose proof (no_setup_after_lookup rest Hrest) as Hzero.
      rewrite Ht in *. cbn [filter]. rewrite Hzero.
      destruct Hin as [[= <- <-] | [Hin | Hin]];
        [| discriminate Hin | exfalso; apply (Hnone _ _ Hin)].
      repeat split; try assumption.
      * unfold str_in in Hc. apply existsb_exists in Hc.
        destruct Hc as (x & Hx & Heq). apply String.eqb_eq in Heq. subst x. exact Hx.
      * exists args. split; [exact H |].
        apply (check_usage_passes args), E.
    + rewrite (run_stops_at_usage_error lookup write args p E) in Hin.
      destruct Hin as [Hin | []]. discriminate Hin.
  - exfalso. unfold main in Hin. rewrite trace_bind, H, app_nil_r in Hin.
    destruct (parse_args_trace cl) as [T | [m T]]; rewrite T in Hin.
    + destruct Hin.
    + destruct Hin as [Hin | []]. discriminate Hin.
  - exfalso. unfold main in Hin. rewrite H in Hin. destruct Hin.
Qed.

End LookupConditions.

(** ** The output file name *)

Lemma substring_whole (p : string) : substring 0 (String.length p) p = p.
Proof.
  induction p as [|c p IH]; cbn; [reflexivity | rewrite IH; reflexivity].
Qed.

Lemma substring_split (n : nat) (p : string) :
  (substring 0 n p ++ substring n (String.length p - n) p)%string = p.
Proof.
  revert p. induction n as [|n IH]; intros p.
  - rewrite Nat.sub_0_r, substring_whole. destruct p; reflexivity.
  - destruct p as [|c p]; [reflexivity |]. cbn. rewrite IH. reflexivity.
Qed.

Lemma append_empty_r (p : string) : (p ++ "")%string = p.
Proof.
  induction p as [|c p IH]; cbn; [reflexivity | rewrite IH; reflexivity].
Qed.

(** [root + ext == path], as the Python documentation of [splitext] has it. *)
Lemma splitext_join (p : string) :
  (fst (splitext p) ++ snd (splitext p))%string = p.
Proof.
  unfold splitext.
  destruct (rfind "/" p <? rfind "." p); [| apply append_empty_r].
  destruct (non_dot_within _ _ _); [| apply append_empty_r].
  cbn [fst snd]. apply substring_split.
Qed.

(** X11: an output file that passes the usage checks is named
    [stem.xlsx] or [stem.csv] with a stem that is not empty: the part
    [os.path.splitext] cuts off is the end of the name itself, and a bare
    [.csv] has no extension. *)
Theorem accepted_outfile_ends_in_extension (args : Namespace) (f : string) :
  check_usage args = ([], Done tt) ->
  outfile args = Some f ->
  exists stem,
    stem <> "" /\
    (f = (stem ++ ".xlsx")%string \/ f = (stem ++ ".csv")%string).
Proof.
  intros Hu Ho.
  destruct (proj1 (check_usage_passes args) Hu) as [_ Hs].
  destruct (Hs f Ho) as [_ Hx].
  assert (He : snd (splitext f) = ".xlsx" \/ snd (splitext f) = ".csv").
  { unfold str_in, supported in Hx. cbn [existsb] in Hx.
    rewrite orb_false_r in Hx. apply orb_true_iff in Hx.
    destruct Hx as [Hx | Hx]; apply String.eqb_eq in Hx; auto. }
  exists (fst (splitext f)). split.
  - intros Hempty. pose proof (splitext_join f) as Hj. rewrite Hempty in Hj.
    cbn in Hj. destruct He as [He | He]; rewrite He in Hj; subst f;
      vm_compute in He; discriminate He.
  - pose proof (splitext_join f) as Hj.
    destruct He as [He | He]; rewrite He in Hj; auto.
Qed.

(** ** What the -v and -a modes print *)

Lemma select_unique (key : string) (idx : list string) (items : list pyval) (v : pyval) :
  NoDup idx -> In (key, v) (combine idx items) -> select key idx items = [v].
Proof.
  revert items. induction idx as [|k idx IH]; intros items Hnd Hin; [destruct Hin |].
  destruct items as [|x items]; [destruct Hin |].
  inversion Hnd as [|? ? Hk Hnd']; subst. cbn in Hin |- *.
  destruct Hin as [[= -> ->] | Hin].
  - rewrite String.eqb_refl. rewrite (select_absent key idx items Hk). reflexivity.
  - destruct (String.eqb_spec k key) as [-> | _].
    + exfalso. apply Hk. apply (in_combine_l _ _ _ _ Hin).
    + apply IH; assumption.
Qed.

Lemma getitem_unique (s : Series) (key : string) (v : pyval) :
  NoDup (index s) -> In (key, v) (combine (index s) (data s)) -> getitem s key = Ok v.
Proof.
  intros Hnd Hin. unfold getitem. rewrite (select_unique key _ _ v Hnd Hin). reflexivity.
Qed.

Lemma filter_other_labels (x : string) (l : list string) :
  ~ In x l -> filter (fun y => negb (String.eqb y x)) l = l.
Proof.
  induction l as [|y l IH]; intros Hn; [reflexivity |]. cbn.
  destruct (String.eqb_spec y x) as [-> | _].
  - exfalso. apply Hn. left. reflexivity.
  - cbn. rewrite IH; [reflexivity |]. intros H. apply Hn. right. exact H.
Qed.

Lemma list_remove_unique (x : string) (l : list string) :
  NoDup l -> In x l ->
  list_remove x l = Ok (filter (fun y => negb (String.eqb y x)) l).
Proof.
  induction l as [|y l IH]; intros Hnd Hin; [destruct Hin |].
  inversion Hnd as [|? ? Hy Hnd']; subst. cbn.
  destruct (String.eqb_spec y x) as [-> | Hne]; cbn.
  - rewrite (filter_other_labels x l Hy). reflexivity.
  - destruct Hin as [-> | Hin]; [contradiction |].
    rewrite (IH Hnd' Hin). reflexivity.
Qed.

Lemma for_each_lines {A} (body : A -> proc unit) (line : A -> printable) (l : list A) :
  (forall x, In x l -> body x = ([Stdout (line x)], Done tt)) ->
  for_each l body = (List.map (fun x => Stdout (line x)) l, Done tt).
Proof.
  induction l as [|x l IH]; intros H; cbn [for_each List.map]; [reflexivity |].
  rewrite (H x (or_introl eq_refl)), IH; [reflexivity |].
  intros y Hy. apply H. right. exact Hy.
Qed.

(** The lines of the verbose loop, column by column, against the cells of
    the row. *)
Lemma labels_against_cells
  (line : string -> printable) (idx : list string) (items : list pyval) :
  List.length items = List.length idx ->
  (forall c v, In (c, v) (combine idx items) ->
     line c = Fmt "  %s : %s" [VStr c; v]) ->
  List.map line (filter (fun y => negb (String.eqb y "id")) idx) =
  List.map (fun cv => Fmt "  %s : %s" [VStr (fst cv); snd cv])
    (filter (fun cv => negb (String.eqb (fst cv) "id")) (combine idx items)).
Proof.
  revert items. induction idx as [|k idx IH]; intros items Hlen Hline;
    [reflexivity |].
  destruct items as [|x items]; [discriminate Hlen |].
  cbn [combine filter fst].
  assert (Hrest : List.map line (filter (fun y => negb (String.eqb y "id")) idx) =
                  List.map (fun cv => Fmt "  %s : %s" [VStr (fst cv); snd cv])
                    (filter (fun cv => negb (String.eqb (fst cv) "id"))
                       (combine idx items))).
  { apply IH; [now injection Hlen |].
    intros c v Hin. apply Hline. right. exact Hin. }
  destruct (negb (String.eqb k "id")); cbn [List.map fst snd].
  - rewrite Hrest, (Hline k x (or_introl eq_refl)). reflexivity.
  - exact Hrest.
Qed.

Lemma bind_print {B} (p : printable) (k : unit -> proc B) :
  bind (print p) k = (Stdout p :: trace (k tt), outcome (k tt)).
Proof.
  unfold bind, print, emit. destruct (k tt); reflexivity.
Qed.

Lemma bind_completed {A B} (m : proc A) (t : list effect) (a : A) (k : A -> proc B) :
  m = (t, Done a) -> bind m k = ((t ++ trace (k a))%list, outcome (k a)).
Proof.
  intros ->. unfold bind. destruct (k a); reflexivity.
Qed.

Lemma stdout_of_lines (l : list printable) :
  flat_map (fun e => match e with Stdout p => [p] | _ => [] end)
    (List.map Stdout l) = l.
Proof.
  induction l as [|p l IH]; cbn; [reflexivity | rewrite IH; reflexivity].
Qed.

Section Modes.

Variable lookup :
  datetime -> pyfloat -> pyfloat -> pynum -> pynum -> result (option DataFrame).
Variable write : file_format -> DataFrame -> string -> result unit.

(** X12: what -v prints. For a frame with distinct column labels and a
    full first row, the output is the line [Event <id>] followed by one
    line [  <column> : <cell>] for every other column of row 0, in column
    order; then the run leaves with status 0. *)
Theorem verbose_mode_lists_the_other_columns
  (args : Namespace) (df : DataFrame) (row : list pyval) (rest : list (list pyval))
  (ident : pyval) :
  check_usage args = ([], Done tt) ->
  lookup (time args) (lat args) (lon args) (choose_twindow args) (choose_radius args)
  = Ok (Some df) ->
  print_all args = false -> print_verbose args = true ->
  rows df = row :: rest ->
  NoDup (columns df) ->
  List.length row = List.length (columns df) ->
  In ("id", ident) (combine (columns df) row) ->
  stdout (run lookup write args) =
  Fmt "Event %s" [ident]
  :: List.map (fun cv => Fmt "  %s : %s" [VStr (fst cv); snd cv])
       (filter (fun cv => negb (String.eqb (fst cv) "id")) (combine (columns df) row)) /\
  outcome (run lookup write args) = Exited 0.
Proof.
  intros Hu Hl Ha Hv Hr Hnd Hlen Hid.
  set (nearest := {| index := columns df; data := row |}).
  set (line := fun c : string =>
         Fmt "  %s : %s"
           [VStr c; match getitem nearest c with Ok v => v | Err _ => VNone end]).
  assert (Hloop :
    for_each (filter (fun y => negb (String.eqb y "id")) (columns df))
      (fun col => bind (lift (getitem nearest col))
                    (fun v => print (Fmt "  %s : %s" [VStr col; v])))
    = (List.map (fun c => Stdout (line c))
         (filter (fun y => negb (String.eqb y "id")) (columns df)), Done tt)).
  { apply for_each_lines. intros c Hc. apply filter_In in Hc. destruct Hc as [Hc _].
    destruct (getitem_of_label nearest c Hc Hlen) as [v Hg].
    unfold line. rewrite Hg. reflexivity. }
  assert (Hlines :
    List.map line (filter (fun y => negb (String.eqb y "id")) (columns df)) =
    List.map (fun cv => Fmt "  %s : %s" [VStr (fst cv); snd cv])
      (filter (fun cv => negb (String.eqb (fst cv) "id")) (combine (columns df) row))).
  { apply labels_against_cells; [exact Hlen |].
    intros c v Hin. unfold line.
    rewrite (getitem_unique nearest c v Hnd Hin). reflexivity. }
  assert (Hp : present write args df =
               (Stdout (Fmt "Event %s" [ident])
                :: List.map Stdout
                     (List.map line
                        (filter (fun y => negb (String.eqb y "id")) (columns df))),
                Exited 0)).
  { unfold present, to_excel, to_csv, iloc0. rewrite Hr. cbn [lift]. rewrite bind_ret_l.
    fold nearest. rewrite Ha, bind_ret_l, Hv.
    rewrite (getitem_unique nearest "id" ident Hnd Hid). cbn [lift].
    rewrite bind_ret_l, bind_print. cbv beta.
    rewrite (list_remove_unique "id" (index nearest) Hnd (in_combine_l _ _ _ _ Hid)).
    cbn [lift index nearest]. rewrite bind_ret_l.
    rewrite (bind_completed _ _ tt _ Hloop). cbn [trace outcome fst snd sys_exit].
    rewrite app_nil_r, List.map_map. reflexivity. }
  rewrite (run_after_checks lookup write args Hu).
  unfold find_nearby_events. rewrite Hl.
  cbv beta iota delta [bind emit lift ret]. rewrite Hp.
  unfold stdout, outcome, trace. cbn [fst snd flat_map app].
  rewrite stdout_of_lines, Hlines. split; reflexivity.
Qed.

(** X13: what -a does with a frame that has at least one row, whatever
    its columns are. Without -o the frame is printed whole, no
    [to_excel] or [to_csv] call is made, and the run leaves with status
    0. With -o (which the usage checks have tied to a supported
    extension, so the name cannot be empty) exactly one call is made,
    [to_excel] for .xlsx and [to_csv] for .csv, with the frame and the
    path as given; when it returns, the one line printed reports the
    number of rows of the frame and the run leaves with status 0; when it
    raises, nothing is printed and the run dies on that exception. *)
Theorem all_mode_prints_or_writes_the_frame
  (args : Namespace) (df : DataFrame) :
  check_usage args = ([], Done tt) ->
  lookup (time args) (lat args) (lon args) (choose_twindow args) (choose_radius args)
  = Ok (Some df) ->
  print_all args = true ->
  rows df <> [] ->
  match outfile args with
  | None =>
      outcome (run lookup write args) = Exited 0 /\
      stdout (run lookup write args) = [Frame df] /\
      exports (run lookup write args) = []
  | Some f =>
      exports (run lookup write args) =
      [if String.eqb (snd (splitext f)) ".xlsx" then ToExcel df f else ToCsv df f] /\
      match write (format_of f) df f with
      | Ok _ =>
          outcome (run lookup write args) = Exited 0 /\
          stdout (run lookup write args) =
          [Fmt "Wrote %i records to %s" [VInt (len df); VStr f]]
      | Err e =>
          outcome (run lookup write args) = Raised e /\
          stdout (run lookup write args) = []
      end
  end.
Proof.
  intros Hu Hl Ha Hr.
  destruct (proj1 (check_usage_passes args) Hu) as [_ Hs].
  rewrite (run_after_checks lookup write args Hu).
  unfold find_nearby_events. rewrite Hl.
  cbv beta iota delta [bind emit lift ret].
  unfold present, to_excel, to_csv, iloc0.
  destruct (rows df) as [|row rest]; [contradiction |]. rewrite Ha.
  destruct (outfile args) as [f|] eqn:Eo.
  - destruct (Hs f eq_refl) as [_ Hx].
    destruct (String.eqb_spec f "") as [-> | Hne];
      [vm_compute in Hx; discriminate Hx |].
    unfold format_of.
    destruct (splitext f) as [fpath fext]. cbn [snd].
    destruct (String.eqb fext ".xlsx").
    + destruct (write Xlsx df f) as [[]|e]; repeat split.
    + destruct (write Csv df f) as [[]|e]; repeat split.
  - repeat split.
Qed.

End Modes.

(** ** The further properties on concrete runs *)

(** [-a] on an answer with columns but no rows. *)
Lemma empty_frame_witness :
  outcome (run (Examples.found (mkFrame ["id"; "url"] [])) Examples.writable
             (Examples.invocation None None true false false None))
  = Raised IndexError.
Proof.
  rewrite (empty_frame_raises_index_error
             (Examples.found (mkFrame ["id"; "url"] [])) Examples.writable
             (Examples.invocation None None true false false None)
             (mkFrame ["id"; "url"] []) eq_refl eq_refl eq_refl).
  reflexivity.
Defined.

(** A lookup that fails with an exception of the HTTP layer. *)
Lemma lookup_exception_witness :
  exit_code (run (fun _ _ _ _ _ => Err (OtherException "ConnectionError")) Examples.writable
               (Examples.invocation None None false true false None)) = 1.
Proof.
  rewrite (lookup_exception_is_not_handled
             (fun _ _ _ _ _ => Err (OtherException "ConnectionError")) Examples.writable
             (Examples.invocation None None false true false None)
             (OtherException "ConnectionError") eq_refl eq_refl).
  reflexivity.
Defined.

(** [-u] on an answer without a [url] column. *)
Lemma missing_column_witness :
  outcome (run (Examples.found (mkFrame ["id"] [[VStr "ci38644943"]])) Examples.writable
             (Examples.invocation None None false true false None))
  = Raised KeyError.
Proof.
  apply (missing_column_raises_key_error
           (Examples.found (mkFrame ["id"] [[VStr "ci38644943"]])) Examples.writable
           (Examples.invocation None None false true false None)
           (mkFrame ["id"] [[VStr "ci38644943"]]) [VStr "ci38644943"] []
           eq_refl eq_refl eq_refl eq_refl).
  cbn. intros [H | []]. discriminate H.
Defined.

(** [-w 0 -r 0]: the lookup gets 16 and 100, neither of them zero. *)
Lemma lookup_bounds_witness :
  In (FindNearbyEvents Examples.july15 (Finite (35932 # 1000))
        (Finite (-117715 # 1000)) (NInt 16) (NInt 100))
    (trace (run Examples.no_events Examples.writable
              (Examples.invocation (Some (Finite 0)) (Some (Finite 0))
                 false false false None))) /\
  ~ num_is_zero (NInt 16) /\ ~ num_is_zero (NInt 100).
Proof.
  assert (H : In (FindNearbyEvents Examples.july15 (Finite (35932 # 1000))
                    (Finite (-117715 # 1000)) (NInt 16) (NInt 100))
                (trace (run Examples.no_events Examples.writable
                          (Examples.invocation (Some (Finite 0)) (Some (Finite 0))
                             false false false None))))
    by (cbn; right; left; reflexivity).
  split; [exact H |].
  exact (lookup_bounds_are_never_zero Examples.no_events Examples.writable _ _ _ _ _ _ H).
Defined.

(** A latitude that is not a number: the parser's message and status 2,
    and nothing else. *)
Lemma rejected_command_line_witness :
  stdout (main Examples.no_events Examples.writable
            (Examples.command_line (Raises ValueError) false true false)) = [] /\
  lookups (main Examples.no_events Examples.writable
             (Examples.command_line (Raises ValueError) false true false)) = [] /\
  exit_code (main Examples.no_events Examples.writable
               (Examples.command_line (Raises ValueError) false true false)) = 2.
Proof.
  destruct (rejected_command_line_does_nothing Examples.no_events Examples.writable
              (Examples.command_line (Raises ValueError) false true false))
    as (Hs & Hl & _).
  - intros args. cbn. discriminate.
  - split; [exact Hs | split; [exact Hl | reflexivity]].
Defined.

(** The default logger of a plain [-u] run: set up once, on stderr, at
    level info. *)
Lemma logger_setup_witness :
  In (SetupLogger "stderr" "info")
    (trace (main (Examples.found Examples.ridgecrest) Examples.writable
              (Examples.command_line (Value (Finite (35932 # 1000))) false true false))) /\
  List.length
    (filter (fun e => match e with SetupLogger _ _ => true | _ => false end)
       (trace (main (Examples.found Examples.ridgecrest) Examples.writable
                 (Examples.command_line (Value (Finite (35932 # 1000)))
                    false true false)))) = 1%nat.
Proof.
  assert (H : In (SetupLogger "stderr" "info")
                (trace (main (Examples.found Examples.ridgecrest) Examples.writable
                          (Examples.command_line (Value (Finite (35932 # 1000)))
                             false true false))))
    by (cbn; left; reflexivity).
  split; [exact H |].
  exact (proj1 (proj2 (proj2 (proj2
           (logger_setup (Examples.found Examples.ridgecrest) Examples.writable _ _ _ H))))).
Defined.

(** [-a -o out.csv]. *)
Lemma accepted_outfile_witness :
  exists stem,
    stem <> "" /\
    ("out.csv" = (stem ++ ".xlsx")%string \/ "out.csv" = (stem ++ ".csv")%string).
Proof.
  apply (accepted_outfile_ends_in_extension
           (Examples.invocation None None true false false (Some "out.csv"))
           "out.csv"); reflexivity.
Defined.

(** [-v] on the one-event answer: the identifier, then the six other
    columns in order. *)
Lemma verbose_mode_witness :
  List.length
    (stdout (run (Examples.found Examples.ridgecrest) Examples.writable
               (Examples.invocation None None false false true None))) = 7%nat /\
  outcome (run (Examples.found Examples.ridgecrest) Examples.writable
             (Examples.invocation None None false false true None)) = Exited 0.
Proof.
  destruct (verbose_mode_lists_the_other_columns
              (Examples.found Examples.ridgecrest) Examples.writable
              (Examples.invocation None None false false true None)
              Examples.ridgecrest Examples.ridgecrest_row [] (VStr "ci38644943")
              eq_refl eq_refl eq_refl eq_refl eq_refl)
    as [Hs Ho].
  - repeat constructor; cbn; intuition discriminate.
  - reflexivity.
  - cbn. left. reflexivity.
  - split; [rewrite Hs; reflexivity | exact Ho].
Defined.

(** [-a -o out.xlsx] on the one-event answer, with a path that can be
    written and with one that cannot. *)
Lemma all_mode_witness :
  stdout (run (Examples.found Examples.ridgecrest) Examples.writable
            (Examples.invocation None None true false false (Some "out.xlsx")))
  = [Fmt "Wrote %i records to %s" [VInt 1; VStr "out.xlsx"]] /\
  exports (run (Examples.found Examples.ridgecrest) Examples.unwritable
             (Examples.invocation None None true false false (Some "out.xlsx")))
  = [ToExcel Examples.ridgecrest "out.xlsx"] /\
  outcome (run (Examples.found Examples.ridgecrest) Examples.unwritable
             (Examples.invocation None None true false false (Some "out.xlsx")))
  = Raised (OtherException "OSError").
Proof.
  pose proof (all_mode_prints_or_writes_the_frame
                (Examples.found Examples.ridgecrest) Examples.writable
                (Examples.invocation None None true false false (Some "out.xlsx"))
                Examples.ridgecrest eq_refl eq_refl eq_refl) as Hw.
  pose proof (all_mode_prints_or_writes_the_frame
                (Examples.found Examples.ridgecrest) Examples.unwritable
                (Examples.invocation None None true false false (Some "out.xlsx"))
                Examples.ridgecrest eq_refl eq_refl eq_refl) as Hu.
  cbn [outfile Examples.invocation] in Hw, Hu.
  destruct Hw as [_ [_ Hs]]; [discriminate |].
  destruct Hu as [He [Ho _]]; [discriminate |].
  repeat split; assumption.
Defined.
